(** * TechMartLK: cart, checkout, review and order rules

    A shallow embedding of the storefront's business rules:
    - [types.ts]: the document shapes;
    - [App.tsx], [ShopProvider]: the in-memory cart and its total;
    - [App.tsx], [CheckoutPage]: the delivery fee and the grand total;
    - [services/mockFirebase.ts], [FirebaseService]: reviews and the
      aggregate rating, order status updates and the cancellation window;
      placing and listing orders, new products, the address book, popups,
      settings, the conversation list and signing in;
    - [App.tsx]: the wish list, the pay button, the flash sale and the
      thumbnails of the product page.

    Conventions of the embedding.
    - A JavaScript [number] that carries an amount, a quantity or a rating is
      an exact rational ([Q]); equations between computed amounts are stated
      with [==].  Rounding, [NaN] and the infinities of IEEE doubles are
      outside the model.
    - [Date.now()] returns whole milliseconds: timestamps are in [Z].
    - An optional property ([offerPrice?], [comment?]) is an [option]; [None]
      stands for an absent or [undefined] property.
    - A Firestore collection is a finite map from document ids to documents.
      [updateDoc] overwrites exactly the properties of its payload.
    - The SDK rejects a payload that holds an [undefined] value, unless it was
      set up with [ignoreUndefinedProperties], when it leaves that property
      out.  The setting is made in the [firebaseConfig] module, which is not
      among the sources: the methods that can pass an [undefined] value take
      it as their first argument. *)

From Stdlib Require Import ZArith QArith Qfield Lia Lqa Sorted.
From stdpp Require Import base option list strings gmap.

Local Open Scope Q_scope.

(** ** JavaScript truthiness of numbers *)

Module Js.

(** [x] is a falsy number: [0] (of any representation). *)
Definition falsy (x : Q) : bool := Qeq_bool x 0.

(** [x || d] where [x] is an optional number: [undefined], [null] and [0]
    all fall through to [d]. *)
Definition or_num (x : option Q) (d : Q) : Q :=
  match x with
  | Some v => if falsy v then d else v
  | None => d
  end.

(** [x ?? d]: only an absent value falls through to [d]. *)
Definition nullish (x : option Q) (d : Q) : Q :=
  match x with
  | Some v => v
  | None => d
  end.

(** [x < y] and [x > y] on numbers. *)
Definition lt (x y : Q) : bool := negb (Qle_bool y x).
Definition gt (x y : Q) : bool := lt y x.

(** [arr.reduce((acc, x) => step(acc, x), init)]. *)
Definition reduce {A B} (step : B -> A -> B) (init : B) (arr : list A) : B :=
  fold_left step arr init.

End Js.

(** ** Data model ([types.ts]) *)

Record Review := {
  review_id : string;
  review_userId : string;
  review_userName : string;
  review_rating : Q;
  review_comment : string;
  review_date : Z
}.

(** [Omit<Review, 'id' | 'date'>], the argument of [addReview]. *)
Record ReviewInput := {
  input_userId : string;
  input_userName : string;
  input_rating : Q;
  input_comment : string
}.

(** [reviews] is read as [product.reviews || []], so a document may lack it.
    [deliveryFee] is not declared in [types.ts]; the product form writes it and
    the checkout page reads it. *)
Record Product := {
  product_id : string;
  product_name : string;
  product_description : string;
  product_shortDescription : option string;
  product_price : Q;
  product_offerPrice : option Q;
  product_category : string;
  product_imageUrl : string;
  product_images : list string;
  product_videoUrl : option string;
  product_stock : Q;
  product_rating : Q;
  product_reviews : option (list Review);
  product_deliveryFee : option Q
}.

Record Address := {
  address_id : string;
  address_label : string;
  address_name : string;
  address_address : string;
  address_city : string;
  address_district : string;
  address_phone : string
}.

Inductive Role := admin | customer.

Record User := {
  user_id : string;
  user_email : string;
  user_name : string;
  user_phone : string;
  user_role : Role;
  user_addresses : list Address;
  user_wishlist : list string
}.

(** [CartItem extends Product { quantity }]: the product's own properties are
    kept together, so that the spread [{ ...item, quantity: q }] is a change
    of [quantity] alone. *)
Record CartItem := {
  item_product : Product;
  quantity : Q
}.

Definition item_id (item : CartItem) : string := product_id (item_product item).

Inductive OrderStatus := Pending | Shipped | Delivered | Cancelled.

Inductive PaymentMethod := Card | COD.

(** The string a status value is at run time; [OrderStatusUpdate.status] is
    declared as a plain [string]. *)
Definition status_name (s : OrderStatus) : string :=
  match s with
  | Pending => "Pending"
  | Shipped => "Shipped"
  | Delivered => "Delivered"
  | Cancelled => "Cancelled"
  end.

Record OrderStatusUpdate := {
  update_status : string;
  update_comment : option string;
  update_timestamp : Z
}.

(** [statusHistory] is read as [order.statusHistory || []]. *)
Record Order := {
  order_userId : string;
  order_items : list CartItem;
  order_totalAmount : Q;
  order_deliveryFee : Q;
  order_status : OrderStatus;
  order_statusHistory : option (list OrderStatusUpdate);
  order_adminComment : option string;
  order_createdAt : Z;
  order_shippingDetails : Address;
  order_paymentMethod : PaymentMethod;
  order_customerEmail : option string;
  order_customerPhone : option string
}.

#[global] Instance Role_eq_dec : EqDecision Role.
Proof. solve_decision. Defined.

#[global] Instance OrderStatus_eq_dec : EqDecision OrderStatus.
Proof. solve_decision. Defined.

(** ** The cart ([ShopProvider] in [App.tsx]) *)

Module Cart.

Definition is_admin (user : option User) : bool :=
  match user with
  | Some u => bool_decide (user_role u = admin)
  | None => false
  end.

(** The updater passed to [setCart] by [addToCart]. *)
Definition add_line (product : Product) (prev : list CartItem) : list CartItem :=
  match List.find (fun item => bool_decide (item_id item = product_id product)) prev with
  | Some _existing =>
      List.map (fun item =>
                  if bool_decide (item_id item = product_id product)
                  then {| item_product := item_product item; quantity := quantity item + 1 |}
                  else item) prev
  | None => prev ++ [ {| item_product := product; quantity := 1 |} ]
  end.

(** [addToCart(product)]; [user] is what [db.getCurrentUser()] returns. *)
Definition addToCart (user : option User) (product : Product)
    (cart : list CartItem) : list CartItem :=
  if is_admin user then cart else add_line product cart.

Definition removeFromCart (id : string) (cart : list CartItem) : list CartItem :=
  List.filter (fun item => negb (bool_decide (item_id item = id))) cart.

Definition updateQuantity (id : string) (qty : Q) (cart : list CartItem) : list CartItem :=
  if Js.lt qty 1 then removeFromCart id cart
  else List.map (fun item =>
                   if bool_decide (item_id item = id)
                   then {| item_product := item_product item; quantity := qty |}
                   else item) cart.

Definition clearCart (cart : list CartItem) : list CartItem := [].

(** [cartTotal]: [item.offerPrice || item.price] times the quantity,
    accumulated from [0]. *)
Definition cartTotal (cart : list CartItem) : Q :=
  Js.reduce (fun sum item =>
               let price := Js.or_num (product_offerPrice (item_product item))
                                      (product_price (item_product item)) in
               sum + price * quantity item) 0 cart.

(** One user action on the cart.  [Add] records the user stored at the time
    of the click. *)
Inductive Op :=
| Add (user : option User) (product : Product)
| Remove (id : string)
| Update (id : string) (qty : Q)
| Clear.

Definition step (cart : list CartItem) (op : Op) : list CartItem :=
  match op with
  | Add user product => addToCart user product cart
  | Remove id => removeFromCart id cart
  | Update id qty => updateQuantity id qty cart
  | Clear => clearCart cart
  end.

(** The cart after a sequence of actions, starting from [useState([])]. *)
Definition run (ops : list Op) : list CartItem := fold_left step ops [].

End Cart.

(** ** Checkout ([CheckoutPage] in [App.tsx]) *)

Module Checkout.

Definition totalDeliveryFee (cart : list CartItem) : Q :=
  Js.reduce (fun sum item =>
               sum + Js.or_num (product_deliveryFee (item_product item)) 0 * quantity item)
            0 cart.

Definition grandTotal (cart : list CartItem) : Q :=
  Cart.cartTotal cart + totalDeliveryFee cart.

End Checkout.

(** ** The data service ([FirebaseService]) *)

Module Firebase.

(** The collections the modelled methods touch. *)
Record Firestore := {
  products : gmap string Product;
  orders : gmap string Order
}.

(** How an awaited call ends: the promise resolves with a value, or it
    rejects and the [await] throws. *)
Inductive Outcome (A : Type) :=
| Resolved (value : A)
| Rejected (message : string).
Arguments Resolved {A} value.
Arguments Rejected {A} message.

(** An [async] method: it reads and writes the store and resolves or
    rejects.  A rejection keeps the writes made before it. *)
Definition Async (A : Type) : Type := Firestore -> Outcome A * Firestore.

Definition ret {A} (a : A) : Async A := fun db => (Resolved a, db).

Definition throw {A} (message : string) : Async A := fun db => (Rejected message, db).

Definition bind {A B} (m : Async A) (k : A -> Async B) : Async B :=
  fun db =>
    match m db with
    | (Resolved a, db') => k a db'
    | (Rejected message, db') => (Rejected message, db')
    end.

Notation "'await' x <- m ; k" := (bind m (fun x => k))
  (at level 10, x name, m at level 100, k at level 200).

(** [doc(firestore, name, id)] addresses one document of a collection. *)
Record Collection (D : Type) := {
  docs : Firestore -> gmap string D;
  with_docs : gmap string D -> Firestore -> Firestore
}.
Arguments docs {D} c db.
Arguments with_docs {D} c m db.

Definition productsCol : Collection Product :=
  {| docs := products;
     with_docs := fun m db => {| products := m; orders := orders db |} |}.

Definition ordersCol : Collection Order :=
  {| docs := orders;
     with_docs := fun m db => {| products := products db; orders := m |} |}.

(** [getDoc]: [None] is a snapshot for which [exists()] is false. *)
Definition getDoc {D} (col : Collection D) (id : string) : Async (option D) :=
  fun db => (Resolved (docs col db !! id), db).

(** [updateDoc(docRef, payload)]: [payload] overwrites the properties it
    names; the SDK rejects an update of a document that does not exist. *)
Definition updateDoc {D} (col : Collection D) (id : string) (payload : D -> D) : Async unit :=
  fun db =>
    match docs col db !! id with
    | Some d => (Resolved tt, with_docs col (<[id := payload d]> (docs col db)) db)
    | None => (Rejected "No document to update", db)
    end.

(** *** Payload properties *)

Definition set_reviews (rs : list Review) (p : Product) : Product :=
  {| product_id := product_id p; product_name := product_name p;
     product_description := product_description p;
     product_shortDescription := product_shortDescription p;
     product_price := product_price p; product_offerPrice := product_offerPrice p;
     product_category := product_category p; product_imageUrl := product_imageUrl p;
     product_images := product_images p; product_videoUrl := product_videoUrl p;
     product_stock := product_stock p; product_rating := product_rating p;
     product_reviews := Some rs; product_deliveryFee := product_deliveryFee p |}.

Definition set_rating (r : Q) (p : Product) : Product :=
  {| product_id := product_id p; product_name := product_name p;
     product_description := product_description p;
     product_shortDescription := product_shortDescription p;
     product_price := product_price p; product_offerPrice := product_offerPrice p;
     product_category := product_category p; product_imageUrl := product_imageUrl p;
     product_images := product_images p; product_videoUrl := product_videoUrl p;
     product_stock := product_stock p; product_rating := r;
     product_reviews := product_reviews p; product_deliveryFee := product_deliveryFee p |}.

Definition set_id (id : string) (p : Product) : Product :=
  {| product_id := id; product_name := product_name p;
     product_description := product_description p;
     product_shortDescription := product_shortDescription p;
     product_price := product_price p; product_offerPrice := product_offerPrice p;
     product_category := product_category p; product_imageUrl := product_imageUrl p;
     product_images := product_images p; product_videoUrl := product_videoUrl p;
     product_stock := product_stock p; product_rating := product_rating p;
     product_reviews := product_reviews p; product_deliveryFee := product_deliveryFee p |}.

Definition set_status (s : OrderStatus) (o : Order) : Order :=
  {| order_userId := order_userId o; order_items := order_items o;
     order_totalAmount := order_totalAmount o; order_deliveryFee := order_deliveryFee o;
     order_status := s; order_statusHistory := order_statusHistory o;
     order_adminComment := order_adminComment o; order_createdAt := order_createdAt o;
     order_shippingDetails := order_shippingDetails o;
     order_paymentMethod := order_paymentMethod o;
     order_customerEmail := order_customerEmail o;
     order_customerPhone := order_customerPhone o |}.

Definition set_adminComment (c : option string) (o : Order) : Order :=
  {| order_userId := order_userId o; order_items := order_items o;
     order_totalAmount := order_totalAmount o; order_deliveryFee := order_deliveryFee o;
     order_status := order_status o; order_statusHistory := order_statusHistory o;
     order_adminComment := c; order_createdAt := order_createdAt o;
     order_shippingDetails := order_shippingDetails o;
     order_paymentMethod := order_paymentMethod o;
     order_customerEmail := order_customerEmail o;
     order_customerPhone := order_customerPhone o |}.

Definition set_statusHistory (h : list OrderStatusUpdate) (o : Order) : Order :=
  {| order_userId := order_userId o; order_items := order_items o;
     order_totalAmount := order_totalAmount o; order_deliveryFee := order_deliveryFee o;
     order_status := order_status o; order_statusHistory := Some h;
     order_adminComment := order_adminComment o; order_createdAt := order_createdAt o;
     order_shippingDetails := order_shippingDetails o;
     order_paymentMethod := order_paymentMethod o;
     order_customerEmail := order_customerEmail o;
     order_customerPhone := order_customerPhone o |}.

(** [arr.length] as a number. *)
Definition len {A} (arr : list A) : Q := inject_Z (Z.of_nat (length arr)).

(** *** Reviews *)

(** [addReview(productId, review)].  [newId] is the string drawn from
    [Math.random()], [now] the reading of [Date.now()]. *)
Definition addReview (newId : string) (now : Z) (productId : string)
    (review : ReviewInput) : Async Product :=
  await docSnap <- getDoc productsCol productId;
  match docSnap with
  | None => throw "Product not found"
  | Some product =>
      let newReview :=
        {| review_id := newId;
           review_userId := input_userId review;
           review_userName := input_userName review;
           review_rating := input_rating review;
           review_comment := input_comment review;
           review_date := now |} in
      let updatedReviews := default [] (product_reviews product) ++ [newReview] in
      let totalRating := Js.reduce (fun acc r => acc + review_rating r) 0 updatedReviews in
      let newRating := totalRating / len updatedReviews in
      await _ <- updateDoc productsCol productId
             (fun p => set_rating newRating (set_reviews updatedReviews p));
      ret (set_rating newRating (set_reviews updatedReviews (set_id productId product)))
  end.

(** [deleteReview(productId, reviewId)]. *)
Definition deleteReview (productId reviewId : string) : Async Product :=
  await docSnap <- getDoc productsCol productId;
  match docSnap with
  | None => throw "Product not found"
  | Some product =>
      let updatedReviews :=
        List.filter (fun r => negb (bool_decide (review_id r = reviewId)))
                    (default [] (product_reviews product)) in
      let totalRating := Js.reduce (fun acc r => acc + review_rating r) 0 updatedReviews in
      let newRating :=
        if Js.gt (len updatedReviews) 0 then totalRating / len updatedReviews else 0 in
      await _ <- updateDoc productsCol productId
             (fun p => set_rating newRating (set_reviews updatedReviews p));
      ret (set_rating newRating (set_reviews updatedReviews (set_id productId product)))
  end.

(** *** Orders *)

(** What the SDK does with a payload that holds an [undefined] value: it
    goes on without the value when [ignoreUndefinedProperties] is set, and
    rejects the call otherwise, which is the default. *)
Definition undefinedValue (ignoreUndefinedProperties : bool) : Async unit :=
  if ignoreUndefinedProperties then ret tt
  else throw "Unsupported field value: undefined".

(** [updateOrderStatus(orderId, status, comment?)]; [now] is the reading of
    [Date.now()].  Nothing happens when the snapshot does not exist.  Without
    a comment the payload holds [adminComment: undefined] and a history entry
    with [comment: undefined]: the SDK rejects it, or writes it without the
    two. *)
Definition updateOrderStatus (ignoreUndefinedProperties : bool) (now : Z)
    (orderId : string) (status : OrderStatus) (comment : option string)
    : Async unit :=
  await docSnap <- getDoc ordersCol orderId;
  match docSnap with
  | Some order =>
      let history :=
        default [] (order_statusHistory order)
          ++ [ {| update_status := status_name status;
                  update_comment := comment;
                  update_timestamp := now |} ] in
      match comment with
      | Some _ =>
          updateDoc ordersCol orderId
            (fun o => set_statusHistory history
                        (set_adminComment comment (set_status status o)))
      | None =>
          await _ <- undefinedValue ignoreUndefinedProperties;
          updateDoc ordersCol orderId
            (fun o => set_statusHistory history (set_status status o))
      end
  | None => ret tt
  end.

Definition msPerHour : Q := 1000 * 60 * 60.

(** [cancelOrder(orderId)]; [now] and [now'] are the two readings of
    [Date.now()], the first for the age of the order, the second for the
    time stamp of the history entry. *)
Definition cancelOrder (now now' : Z) (orderId : string) : Async bool :=
  await docSnap <- getDoc ordersCol orderId;
  match docSnap with
  | None => ret false
  | Some order =>
      let timeDiff := (now - order_createdAt order)%Z in
      let hoursDiff := inject_Z timeDiff / msPerHour in
      if Js.gt hoursDiff 24 || negb (bool_decide (order_status order = Pending))
      then ret false
      else
        let history :=
          default [] (order_statusHistory order)
            ++ [ {| update_status := "Cancelled";
                    update_comment := Some "Cancelled by user";
                    update_timestamp := now' |} ] in
        await _ <- updateDoc ordersCol orderId
               (fun o => set_statusHistory history (set_status Cancelled o));
        ret true
  end.

End Firebase.

(** ** The properties, in the specification's words *)

Module Spec.

(** The sum over the elements of [l] of [f]. *)
Fixpoint sum_over {A} (f : A -> Q) (l : list A) : Q :=
  match l with
  | [] => 0
  | x :: rest => f x + sum_over f rest
  end.

(** "offerPrice if present, otherwise price": [offerPrice ?? price]. *)
Definition price_if_present (p : Product) : Q :=
  Js.nullish (product_offerPrice p) (product_price p).

(** The offer price when there is one and it is not zero, otherwise the
    price. *)
Definition unit_price (p : Product) : Q :=
  match product_offerPrice p with
  | Some offer => if Qeq_dec offer 0 then product_price p else offer
  | None => product_price p
  end.

(** The per-unit delivery fee of a line; a line without one ships free. *)
Definition unit_fee (p : Product) : Q :=
  Js.nullish (product_deliveryFee p) 0.

(** The worth of a line at a unit price or fee. *)
Definition line (per_unit : Product -> Q) (item : CartItem) : Q :=
  per_unit (item_product item) * quantity item.

(** The arithmetic mean of the ratings of [rs], and 0 for no review. *)
Definition mean_rating (rs : list Review) : Q :=
  match rs with
  | [] => 0
  | _ :: _ => sum_over review_rating rs / inject_Z (Z.of_nat (length rs))
  end.

(** The cancellation window: 24 hours, in milliseconds. *)
Definition window_ms : Z := 24 * 60 * 60 * 1000.

(** Some line of [cart] is for the product [id]. *)
Definition in_cart (id : string) (cart : list CartItem) : Prop :=
  exists item, item ∈ cart /\ item_id item = id.

(** [item] with its quantity raised by one. *)
Definition one_more (item : CartItem) : CartItem :=
  {| item_product := item_product item; quantity := quantity item + 1 |}.

(** What adding [product] to [cart] yields [cart']: the lines for the product
    gain one unit and no line is created; or, when there is none, one line
    of quantity 1 is appended. *)
Definition added (product : Product) (cart cart' : list CartItem) : Prop :=
  (in_cart (product_id product) cart ->
     length cart' = length cart /\
     forall i item, cart !! i = Some item ->
       cart' !! i = Some (if decide (item_id item = product_id product)
                          then one_more item else item)) /\
  (~ in_cart (product_id product) cart ->
     cart' = cart ++ [ {| item_product := product; quantity := 1 |} ]).

(** A line never shows a quantity below 1. *)
Definition at_least_one (item : CartItem) : Prop := 1 <= quantity item.

(** How an operation on a missing document must end: with an error. *)
Definition raises {A} (m : Firebase.Async A) (db : Firebase.Firestore) : Prop :=
  exists message db', m db = (Firebase.Rejected message, db').

End Spec.

(** ** Sample data *)

Module Sample.

Definition product (id : string) (price : Q) (offer fee : option Q) : Product :=
  {| product_id := id; product_name := id; product_description := "";
     product_shortDescription := None; product_price := price;
     product_offerPrice := offer; product_category := "General";
     product_imageUrl := ""; product_images := []; product_videoUrl := None;
     product_stock := 5; product_rating := 0; product_reviews := Some [];
     product_deliveryFee := fee |}.

Definition laptop : Product := product "laptop" 1000 None (Some 100).
Definition phone : Product := product "phone" 1000 (Some 800) (Some 0).
Definition sticker : Product := product "sticker" 100 (Some 0) None.

Definition account (id : string) (role : Role) : User :=
  {| user_id := id; user_email := id; user_name := id; user_phone := "";
     user_role := role; user_addresses := []; user_wishlist := [] |}.

Definition owner : User := account "owner" admin.
Definition shopper : User := account "shopper" customer.

Definition review (id : string) (rating : Q) : Review :=
  {| review_id := id; review_userId := "shopper"; review_userName := "shopper";
     review_rating := rating; review_comment := ""; review_date := 0 |}.

Definition opinion (rating : Q) : ReviewInput :=
  {| input_userId := "shopper"; input_userName := "shopper";
     input_rating := rating; input_comment := "" |}.

Definition home : Address :=
  {| address_id := "a1"; address_label := "Home"; address_name := "shopper";
     address_address := ""; address_city := ""; address_district := "Colombo";
     address_phone := "" |}.

(** An order as [createOrder] writes it at time [created]. *)
Definition placed (created : Z) : Order :=
  {| order_userId := "shopper";
     order_items := [ {| item_product := laptop; quantity := 1 |} ];
     order_totalAmount := 1100; order_deliveryFee := 100;
     order_status := Pending;
     order_statusHistory :=
       Some [ {| update_status := "Pending";
                 update_comment := Some "Order placed successfully";
                 update_timestamp := created |} ];
     order_adminComment := None; order_createdAt := created;
     order_shippingDetails := home; order_paymentMethod := COD;
     order_customerEmail := Some "shopper"; order_customerPhone := Some "" |}.

Definition empty_store : Firebase.Firestore :=
  {| Firebase.products := ∅; Firebase.orders := ∅ |}.

Definition store : Firebase.Firestore :=
  {| Firebase.products := {[ "laptop" := laptop ]};
     Firebase.orders := {[ "o1" := placed 0 ]} |}.

(** A store whose laptop carries the reviews [rs]; the stored rating is
    stale on purpose. *)
Definition reviewed (rs : list Review) : Firebase.Firestore :=
  {| Firebase.products :=
       {[ "laptop" := Firebase.set_rating 5 (Firebase.set_reviews rs laptop) ]};
     Firebase.orders := ∅ |}.

(** The rating stored for the product [id], if the document exists. *)
Definition stored_rating (id : string) (db : Firebase.Firestore) : option Q :=
  product_rating <$> (Firebase.products db !! id).

(** The cart of the checkout scenario: two laptops and a discounted phone. *)
Definition scenario : list CartItem :=
  [ {| item_product := laptop; quantity := 2 |};
    {| item_product := phone; quantity := 1 |} ].

End Sample.

(** ** Data model, continued ([types.ts]) *)

Inductive PopupType := info | warning | success.

Record Popup := {
  popup_message : string;
  popup_type : PopupType;
  popup_isActive : bool
}.

Inductive Sender := fromUser | fromAdmin.

Record ChatMessage := {
  message_id : string;
  message_userId : string;
  message_sender : Sender;
  message_text : string;
  message_timestamp : Z;
  message_read : bool;
  message_readAt : option Z
}.

Record ShopSettings := {
  settings_shopName : string;
  settings_address : string;
  settings_phone : string;
  settings_whatsapp : string;
  settings_homeBannerUrl : string;
  settings_bannerImages : option (list string)
}.

(** [Omit<Address, 'id'>], the argument of [saveAddress]. *)
Record AddressInput := {
  new_label : string;
  new_name : string;
  new_address : string;
  new_city : string;
  new_district : string;
  new_phone : string
}.

(** [Partial<Product>], the argument of [addProduct]: every property may be
    missing. *)
Record ProductForm := {
  form_name : option string;
  form_description : option string;
  form_shortDescription : option string;
  form_price : option Q;
  form_offerPrice : option Q;
  form_category : option string;
  form_imageUrl : option string;
  form_images : option (list string);
  form_videoUrl : option string;
  form_stock : option Q;
  form_deliveryFee : option Q
}.

(** ** JavaScript arrays and strings *)

Module Arr.

(** [x || d] on an optional string: [undefined] and the empty string fall
    through to [d]. *)
Definition or_str (x : option string) (d : string) : string :=
  match x with
  | Some s => if bool_decide (s = "") then d else s
  | None => d
  end.

(** A string is truthy unless it is empty. *)
Definition truthy_str (s : string) : bool := negb (bool_decide (s = "")).

(** [arr.includes(x)] on strings. *)
Definition includes (x : string) (arr : list string) : bool :=
  bool_decide (x ∈ arr).

(** [Array.from(new Set(arr))]: the distinct elements, each at the place of
    its first occurrence. *)
Definition unique (arr : list string) : list string :=
  fold_left (fun seen x => if includes x seen then seen else seen ++ [x]) arr [].

(** [arr.sort(cmp)], which is stable: [x] moves behind the elements [y] it is
    compared greater than ([cmp(x, y) > 0]) and stays in front of the others. *)
Fixpoint insert {A} (cmp : A -> A -> Z) (x : A) (sorted : list A) : list A :=
  match sorted with
  | [] => [x]
  | y :: rest => if (0 <? cmp x y)%Z then y :: insert cmp x rest else x :: sorted
  end.

Definition sort {A} (cmp : A -> A -> Z) (arr : list A) : list A :=
  fold_right (insert cmp) [] arr.

End Arr.

(** ** The data service, continued: products and orders *)

Module Service.

Import Firebase.

(** [addDoc(collection, data)]: the SDK draws a new document id, [newId], and
    stores [data] under it. *)
Definition addDoc {D} (col : Collection D) (newId : string) (data : D) : Async string :=
  fun db => (Resolved newId, with_docs col (<[newId := data]> (docs col db)) db).

(** [snapshot.docs] of a query: the documents with their ids.  The order in
    which the SDK lists them is left to the map. *)
Definition getDocs {D} (col : Collection D) (keep : D -> bool) : Async (list (string * D)) :=
  fun db => (Resolved (List.filter (fun doc => keep (snd doc)) (map_to_list (docs col db))), db).

(** [addProduct(product)].  The stored product carries its document id, as
    [getProducts] attaches it to what it reads. *)
Definition addProduct (newId : string) (product : ProductForm) : Async Product :=
  let newProductData :=
    {| product_id := newId;
       product_name := Arr.or_str (form_name product) "Untitled";
       product_description := Arr.or_str (form_description product) "";
       product_shortDescription := None;
       product_price := Js.or_num (form_price product) 0;
       product_offerPrice :=
         match form_offerPrice product with
         | Some offer => if Js.falsy offer then None else Some offer
         | None => None
         end;
       product_category := Arr.or_str (form_category product) "General";
       product_imageUrl := Arr.or_str (form_imageUrl product) "";
       product_images :=
         match form_images product with
         | Some images => images
         | None => [Arr.or_str (form_imageUrl product) ""]
         end;
       product_videoUrl := Some (Arr.or_str (form_videoUrl product) "");
       product_stock := Js.or_num (form_stock product) 0;
       product_rating := 0;
       product_reviews := Some [];
       product_deliveryFee := None |} in
  await docRef <- addDoc productsCol newId newProductData;
  ret (set_id docRef newProductData).

(** [createOrder(...)]; [now] and [now'] are the two readings of [Date.now()],
    for the history entry and for [createdAt]; [deliveryFee] defaults to 0.
    The order is returned with its document id.  Without an email or a phone
    the payload holds an [undefined] value. *)
Definition createOrder (ignoreUndefinedProperties : bool) (now now' : Z)
    (newId : string) (userId : string)
    (items : list CartItem) (total : Q) (shippingDetails : Address)
    (paymentMethod : PaymentMethod) (deliveryFee : option Q)
    (customerEmail customerPhone : option string) : Async (string * Order) :=
  let newOrderData :=
    {| order_userId := userId;
       order_items := items;
       order_totalAmount := total;
       order_deliveryFee := default 0 deliveryFee;
       order_status := Pending;
       order_statusHistory :=
         Some [ {| update_status := "Pending";
                   update_comment := Some "Order placed successfully";
                   update_timestamp := now |} ];
       order_adminComment := None;
       order_createdAt := now';
       order_shippingDetails := shippingDetails;
       order_paymentMethod := paymentMethod;
       order_customerEmail := customerEmail;
       order_customerPhone := customerPhone |} in
  await _ <- match customerEmail, customerPhone with
             | Some _, Some _ => ret tt
             | _, _ => undefinedValue ignoreUndefinedProperties
             end;
  await docRef <- addDoc ordersCol newId newOrderData;
  ret (docRef, newOrderData).

(** [getOrders(userId?)]: the orders of [userId], or every order when it is
    missing or empty, newest first. *)
Definition getOrders (userId : option string) : Async (list (string * Order)) :=
  let q :=
    match userId with
    | Some uid =>
        if Arr.truthy_str uid
        then getDocs ordersCol (fun data => bool_decide (order_userId data = uid))
        else getDocs ordersCol (fun _ => true)
    | None => getDocs ordersCol (fun _ => true)
    end in
  await orders <- q;
  ret (Arr.sort (fun a b => (order_createdAt (snd b) - order_createdAt (snd a))%Z) orders).

(** One call made on an order after it was placed. *)
Inductive OrderCall :=
| SetStatus (now : Z) (status : OrderStatus) (comment : option string)
| Cancel (now now' : Z).

Definition call (ignoreUndefinedProperties : bool) (orderId : string)
    (c : OrderCall) (db : Firestore) : Firestore :=
  match c with
  | SetStatus now status comment =>
      snd (updateOrderStatus ignoreUndefinedProperties now orderId status comment db)
  | Cancel now now' => snd (cancelOrder now now' orderId db)
  end.

(** The store after the calls [cs] on the order [orderId], whether they
    resolve or are rejected. *)
Definition calls (ignoreUndefinedProperties : bool) (orderId : string)
    (cs : list OrderCall) (db : Firestore) : Firestore :=
  fold_left (fun db c => call ignoreUndefinedProperties orderId c db) cs db.

End Service.

(** ** The shop pages ([App.tsx]) *)

Module Shop.

(** [cartCount] of the navigation bar. *)
Definition cartCount (cart : list CartItem) : Q :=
  Js.reduce (fun sum item => sum + quantity item) 0 cart.

(** [flashSaleProducts] of the home page. *)
Definition flashSaleProducts (products : list Product) : list Product :=
  List.filter (fun p =>
                 match product_offerPrice p with
                 | Some offer => negb (Js.falsy offer) && Js.lt offer (product_price p)
                 | None => false
                 end) products.

(** What [handleOrder] does with a click on the pay button. *)
Inductive Checkout :=
| ToLogin
| Ignored
| AskForAddress
| Placed.

(** [createOrderInDb(address, method)] of the checkout page: the order is
    written, then the cart is cleared.  The result is the cart afterwards. *)
Definition createOrderInDb (ignoreUndefinedProperties : bool) (now now' : Z)
    (newId : string) (user : option User)
    (cart : list CartItem) (address : Address) (method : PaymentMethod)
    : Firebase.Async (list CartItem) :=
  match user with
  | None => Firebase.ret cart
  | Some u =>
      Firebase.bind
        (Service.createOrder ignoreUndefinedProperties now now' newId (user_id u) cart
           (Checkout.grandTotal cart)
           address method (Some (Checkout.totalDeliveryFee cart))
           (Some (user_email u)) (Some (address_phone address)))
        (fun _ => Firebase.ret (Cart.clearCart cart))
  end.

(** [handleOrder()]: the guards, then [createOrderInDb].  For a card payment
    the page calls it from two nested timers; the passing of time is not
    modelled, and the call is the one made when they have fired. *)
Definition handleOrder (ignoreUndefinedProperties : bool) (now now' : Z)
    (newId : string) (user : option User)
    (cart : list CartItem) (selectedAddressId : string) (paymentMethod : PaymentMethod)
    : Firebase.Async (Checkout * list CartItem) :=
  match user with
  | None => Firebase.ret (ToLogin, cart)
  | Some u =>
      if bool_decide (length cart = 0%nat) then Firebase.ret (Ignored, cart)
      else if negb (Arr.truthy_str selectedAddressId)
      then Firebase.ret (AskForAddress, cart)
      else
        match List.find (fun a => bool_decide (address_id a = selectedAddressId))
                        (user_addresses u) with
        | None => Firebase.ret (Ignored, cart)
        | Some address =>
            Firebase.bind
              (createOrderInDb ignoreUndefinedProperties now now' newId user cart
                 address paymentMethod)
              (fun cart' => Firebase.ret (Placed, cart'))
        end
  end.

End Shop.

(** ** The signed-in user ([AuthProvider] and the address book) *)

Module Account.

Import Firebase.

(** The [users] collection and the [techstore_user] entry of the local
    storage. *)
Record Profiles := {
  users : gmap string User;
  localStorage : option User
}.

Definition set_addresses (addresses : list Address) (u : User) : User :=
  {| user_id := user_id u; user_email := user_email u; user_name := user_name u;
     user_phone := user_phone u; user_role := user_role u;
     user_addresses := addresses; user_wishlist := user_wishlist u |}.

Definition set_wishlist (wishlist : list string) (u : User) : User :=
  {| user_id := user_id u; user_email := user_email u; user_name := user_name u;
     user_phone := user_phone u; user_role := user_role u;
     user_addresses := user_addresses u; user_wishlist := wishlist |}.

(** The write both address methods make: [updateDoc] on the user's document,
    which the SDK rejects when there is none, then the local storage. *)
Definition write_addresses (user : User) (updatedAddresses : list Address)
    (db : Profiles) : Outcome User * Profiles :=
  match users db !! user_id user with
  | None => (Rejected "No document to update", db)
  | Some stored =>
      let updatedUser := set_addresses updatedAddresses user in
      (Resolved updatedUser,
       {| users := <[user_id user := set_addresses updatedAddresses stored]> (users db);
          localStorage := Some updatedUser |})
  end.

(** [saveAddress(user, address)]; [newId] is the string drawn from
    [Math.random()]. *)
Definition saveAddress (newId : string) (user : User) (address : AddressInput)
    (db : Profiles) : Outcome User * Profiles :=
  let newAddress :=
    {| address_id := newId; address_label := new_label address;
       address_name := new_name address; address_address := new_address address;
       address_city := new_city address; address_district := new_district address;
       address_phone := new_phone address |} in
  let updatedAddresses := user_addresses user ++ [newAddress] in
  write_addresses user updatedAddresses db.

(** [deleteAddress(user, addressId)]. *)
Definition deleteAddress (user : User) (addressId : string)
    (db : Profiles) : Outcome User * Profiles :=
  let updatedAddresses :=
    List.filter (fun a => negb (bool_decide (address_id a = addressId)))
                (user_addresses user) in
  write_addresses user updatedAddresses db.

(** The list [toggleWishlist] computes. *)
Definition toggled (productId : string) (wishlist : list string) : list string :=
  let isLiked := Arr.includes productId wishlist in
  if isLiked
  then List.filter (fun id => negb (bool_decide (id = productId))) wishlist
  else wishlist ++ [productId].

(** [toggleWishlist(productId)] on the provider's [user] state and the local
    storage; nothing happens when nobody is signed in. *)
Definition toggleWishlist (productId : string)
    (state : option User * option User) : option User * option User :=
  match fst state with
  | None => state
  | Some user =>
      let updatedUser := set_wishlist (toggled productId (user_wishlist user)) user in
      (Some updatedUser, Some updatedUser)
  end.

End Account.

(** ** Popups and shop settings *)

Module Site.

Import Firebase.

(** The [popups] collection and the [settings/main] document. *)
Record Content := {
  popups : gmap string Popup;
  settings : option ShopSettings
}.

(** [togglePopup(id)]. *)
Definition togglePopup (id : string) (db : Content) : Outcome unit * Content :=
  match popups db !! id with
  | Some data =>
      (Resolved tt,
       {| popups :=
            <[id := {| popup_message := popup_message data;
                       popup_type := popup_type data;
                       popup_isActive := negb (popup_isActive data) |}]> (popups db);
          settings := settings db |})
  | None => (Resolved tt, db)
  end.

(** The banners the home page shows: the active popups. *)
Definition activePopups (shown : list (string * Popup)) : list (string * Popup) :=
  List.filter (fun p => popup_isActive (snd p)) shown.

Definition defaultSettings : ShopSettings :=
  {| settings_shopName := "TechMart LK";
     settings_address := "No. 123, High Level Road, Colombo 06";
     settings_phone := "+94 11 234 5678";
     settings_whatsapp := "94771234567";
     settings_homeBannerUrl := "";
     settings_bannerImages := Some [] |}.

(** [getSettings()]: the stored settings, or the defaults, which are then
    stored. *)
Definition getSettings (db : Content) : Outcome ShopSettings * Content :=
  match settings db with
  | Some data => (Resolved data, db)
  | None =>
      (Resolved defaultSettings,
       {| popups := popups db; settings := Some defaultSettings |})
  end.

(** [updateSettings(settings)]. *)
Definition updateSettings (new : ShopSettings) (db : Content) : Outcome ShopSettings * Content :=
  (Resolved new, {| popups := popups db; settings := Some new |}).

End Site.

(** ** Support chat: the conversation list *)

Module Chat.

(** What [getAllChats] and [subscribeToAllChats] make of the messages of a
    snapshot: one entry per customer, with [userMsgs[0]] as last message. *)
Definition conversations (messages : list ChatMessage)
    : list (string * option ChatMessage) :=
  let uniqueUsers := Arr.unique (List.map message_userId messages) in
  List.map (fun uid =>
              let userMsgs :=
                List.filter (fun m => bool_decide (message_userId m = uid)) messages in
              (uid, head userMsgs)) uniqueUsers.

End Chat.

(** ** The product page: the gallery thumbnails *)

Module Detail.

(** [arr.indexOf(x)]: the index of the first occurrence of [x], counted from
    [i] for the head of [arr], or -1. *)
Fixpoint index_from (i : Z) (x : string) (arr : list string) : Z :=
  match arr with
  | [] => (-1)%Z
  | y :: rest => if bool_decide (y = x) then i else index_from (i + 1)%Z x rest
  end.

Definition indexOf (x : string) (arr : list string) : Z := index_from 0 x arr.

(** [arr.filter((x, i) => keep(x, i))], with [i] the index of the head. *)
Fixpoint filter_from (keep : string -> Z -> bool) (i : Z) (arr : list string)
    : list string :=
  match arr with
  | [] => []
  | x :: rest =>
      if keep x i then x :: filter_from keep (i + 1)%Z rest
      else filter_from keep (i + 1)%Z rest
  end.

(** The thumbnails: the main image and the gallery images, without the empty
    ones and without repetitions. *)
Definition thumbnails (product : Product) : list string :=
  let arr := product_imageUrl product :: product_images product in
  filter_from (fun img i => Arr.truthy_str img && (indexOf img arr =? i)%Z) 0 arr.

End Detail.

(** ** Signing in ([FirebaseService.login]) *)

Module Session.

Import Firebase Account.

Definition set_user_id (id : string) (u : User) : User :=
  {| user_id := id; user_email := user_email u; user_name := user_name u;
     user_phone := user_phone u; user_role := user_role u;
     user_addresses := user_addresses u; user_wishlist := user_wishlist u |}.

(** [login(email, password?)].  [signIn] stands for the provider's
    [signInWithEmailAndPassword]: it resolves to the account's uid or
    rejects.  The profile is looked up by email first, then by uid; the
    profiles with that email are taken in the order the map lists them.  A
    profile found by email gets the id of its document; one found under the
    uid keeps the id it holds, as the spread of its data comes last. *)
Definition login (signIn : string -> string -> Outcome string)
    (email : string) (password : option string) (db : Profiles)
    : Outcome User * Profiles :=
  match password with
  | None => (Rejected "Password is required", db)
  | Some pw =>
      if negb (Arr.truthy_str pw) then (Rejected "Password is required", db)
      else
        match signIn email pw with
        | Rejected message => (Rejected message, db)
        | Resolved uid =>
            let snapshot :=
              List.filter (fun doc => bool_decide (user_email (snd doc) = email))
                          (map_to_list (users db)) in
            let found :=
              match snapshot with
              | doc :: _ => Some (set_user_id (fst doc) (snd doc))
              | [] => users db !! uid
              end in
            match found with
            | Some user =>
                (Resolved user, {| users := users db; localStorage := Some user |})
            | None => (Rejected "User profile not found in database.", db)
            end
        end
  end.

(** [getCurrentUser()]. *)
Definition getCurrentUser (db : Profiles) : option User := localStorage db.

End Session.

(** ** Properties of orders over time *)

Module Props.

(** The history of [o] starts with [first] and ends with the status [o] has. *)
Definition tracked (first : OrderStatusUpdate) (o : Order) : Prop :=
  exists history,
    order_statusHistory o = Some history
    /\ history !! 0%nat = Some first
    /\ update_status <$> last history = Some (status_name (order_status o)).

(** [o'] is for the same purchase as [o]: what was bought, by whom, for how
    much, when, where to and how paid. *)
Definition same_purchase (o o' : Order) : Prop :=
  order_userId o' = order_userId o
  /\ order_items o' = order_items o
  /\ order_totalAmount o' = order_totalAmount o
  /\ order_deliveryFee o' = order_deliveryFee o
  /\ order_createdAt o' = order_createdAt o
  /\ order_shippingDetails o' = order_shippingDetails o
  /\ order_paymentMethod o' = order_paymentMethod o
  /\ order_customerEmail o' = order_customerEmail o
  /\ order_customerPhone o' = order_customerPhone o.

End Props.

(** ** Properties of products over time *)

Module Listing.

(** [p'] is the same catalogue entry as [p]: everything but the reviews and
    the rating. *)
Definition same_listing (p p' : Product) : Prop :=
  product_id p' = product_id p
  /\ product_name p' = product_name p
  /\ product_description p' = product_description p
  /\ product_shortDescription p' = product_shortDescription p
  /\ product_price p' = product_price p
  /\ product_offerPrice p' = product_offerPrice p
  /\ product_category p' = product_category p
  /\ product_imageUrl p' = product_imageUrl p
  /\ product_images p' = product_images p
  /\ product_videoUrl p' = product_videoUrl p
  /\ product_stock p' = product_stock p
  /\ product_deliveryFee p' = product_deliveryFee p.

(** [r] lies between [lo] and [hi]. *)
Definition within (lo hi r : Q) : Prop := lo <= r /\ r <= hi.

End Listing.

(** ** Sample data, continued *)

Module Fixture.

(** The shopper with one saved address. *)
Definition buyer : User := Account.set_addresses [Sample.home] Sample.shopper.

Definition profiles : Account.Profiles :=
  {| Account.users := {[ "shopper" := buyer ]};
     Account.localStorage := Some buyer |}.

Definition office : AddressInput :=
  {| new_label := "Office"; new_name := "shopper"; new_address := "";
     new_city := ""; new_district := "Colombo"; new_phone := "" |}.

Definition message (id userId : string) (sender : Sender) (timestamp : Z) : ChatMessage :=
  {| message_id := id; message_userId := userId; message_sender := sender;
     message_text := ""; message_timestamp := timestamp;
     message_read := false; message_readAt := None |}.

(** A snapshot of the chats, latest message first. *)
Definition inbox : list ChatMessage :=
  [ message "m4" "ann" fromAdmin 40;
    message "m3" "bob" fromUser 30;
    message "m2" "ann" fromUser 20;
    message "m1" "bob" fromUser 10 ].

End Fixture.

(** * Proofs *)

(** ** Numbers and lists *)

Section Numbers.

Lemma falsy_iff (x : Q) : Js.falsy x = true <-> x == 0.
Proof. unfold Js.falsy. apply Qeq_bool_iff. Qed.

Lemma lt_true (x y : Q) : Js.lt x y = true <-> x < y.
Proof.
  unfold Js.lt. rewrite negb_true_iff. split.
  - intros H. apply Qnot_le_lt. intros Hle.
    apply Qle_bool_iff in Hle. congruence.
  - intros H. destruct (Qle_bool y x) eqn:E; [|reflexivity].
    apply Qle_bool_iff in E. exfalso. exact (Qlt_not_le _ _ H E).
Qed.

Lemma lt_false (x y : Q) : Js.lt x y = false <-> y <= x.
Proof.
  unfold Js.lt. rewrite negb_false_iff. apply Qle_bool_iff.
Qed.

Lemma or_num_unit_price (p : Product) :
  Js.or_num (product_offerPrice p) (product_price p) = Spec.unit_price p.
Proof.
  unfold Js.or_num, Spec.unit_price.
  destruct (product_offerPrice p) as [offer|]; [|reflexivity].
  destruct (Qeq_dec offer 0) as [Hz|Hnz].
  - apply falsy_iff in Hz. now rewrite Hz.
  - destruct (Js.falsy offer) eqn:E; [|reflexivity].
    apply falsy_iff in E. contradiction.
Qed.

Lemma or_num_unit_fee (p : Product) :
  Js.or_num (product_deliveryFee p) 0 == Spec.unit_fee p.
Proof.
  unfold Js.or_num, Spec.unit_fee, Js.nullish.
  destruct (product_deliveryFee p) as [fee|]; [|reflexivity].
  destruct (Js.falsy fee) eqn:E; [|reflexivity].
  apply falsy_iff in E. now rewrite E.
Qed.

(** A [reduce] that adds [f x] to its accumulator computes a sum. *)
Lemma reduce_sum {A} (f : A -> Q) (l : list A) (acc : Q) :
  Js.reduce (fun sum x => sum + f x) acc l == acc + Spec.sum_over f l.
Proof.
  unfold Js.reduce. revert acc.
  induction l as [|x l IH]; intros acc; simpl.
  - ring.
  - rewrite IH. ring.
Qed.

Lemma sum_over_ext {A} (f g : A -> Q) (l : list A) :
  (forall x, x ∈ l -> f x == g x) -> Spec.sum_over f l == Spec.sum_over g l.
Proof.
  induction l as [|x l IH]; intros H; simpl; [reflexivity|].
  rewrite (H x) by apply list_elem_of_here.
  rewrite IH; [reflexivity|].
  intros y Hy. apply H. now apply list_elem_of_further.
Qed.

Lemma lookup_map {A B} (f : A -> B) (l : list A) (i : nat) :
  List.map f l !! i = f <$> (l !! i).
Proof.
  revert i. induction l as [|x l IH]; intros [|i]; simpl; auto.
Qed.

Lemma find_in_cart (id : string) (cart : list CartItem) :
  is_Some (List.find (fun item => bool_decide (item_id item = id)) cart)
  <-> Spec.in_cart id cart.
Proof.
  split.
  - intros [item Hfind]. apply find_some in Hfind as [Hin Hid].
    exists item. split; [now apply list_elem_of_In|].
    now apply bool_decide_eq_true in Hid.
  - intros (item & Hin & Hid).
    destruct (List.find _ cart) as [found|] eqn:E; [now exists found|].
    exfalso. apply list_elem_of_In in Hin.
    pose proof (find_none _ _ E item Hin) as Hnone. simpl in Hnone.
    apply bool_decide_eq_false in Hnone. contradiction.
Qed.

End Numbers.

(** ** The cart *)

Section CartProperties.

Import Cart.

Lemma cartTotal_sum (cart : list CartItem) :
  cartTotal cart == Spec.sum_over (Spec.line Spec.unit_price) cart.
Proof.
  unfold cartTotal. cbv zeta.
  rewrite (reduce_sum (fun item =>
             Js.or_num (product_offerPrice (item_product item))
                       (product_price (item_product item)) * quantity item)).
  rewrite Qplus_0_l. apply sum_over_ext. intros item _.
  unfold Spec.line. now rewrite or_num_unit_price.
Qed.

(** C3, as amended: after every sequence of cart actions from the empty
    cart, the cart total is the sum over the remaining lines of the unit
    price times the quantity, where the unit price is the offer price when
    there is one and it is not zero, and the price otherwise. *)
Theorem cartTotal_run (ops : list Op) :
  cartTotal (run ops) == Spec.sum_over (Spec.line Spec.unit_price) (run ops).
Proof. apply cartTotal_sum. Qed.

(** C3, as stated, fails: a line whose offer price is present and zero is
    charged at its price, not at zero. *)
Lemma cartTotal_zero_offer :
  ~ (forall ops : list Op,
       cartTotal (run ops) == Spec.sum_over (Spec.line Spec.price_if_present) (run ops)).
Proof.
  intros H. specialize (H [Add None Sample.sticker]).
  vm_compute in H. discriminate H.
Qed.

(** Where no remaining line has a zero offer price, the two readings of the
    unit price agree. *)
Lemma cartTotal_if_present (cart : list CartItem) :
  (forall item offer, item ∈ cart ->
     product_offerPrice (item_product item) = Some offer -> ~ offer == 0) ->
  cartTotal cart == Spec.sum_over (Spec.line Spec.price_if_present) cart.
Proof.
  intros Hnz. rewrite cartTotal_sum. apply sum_over_ext. intros item Hin.
  unfold Spec.line, Spec.unit_price, Spec.price_if_present, Js.nullish.
  destruct (product_offerPrice (item_product item)) as [offer|] eqn:E; [|reflexivity].
  destruct (Qeq_dec offer 0) as [Hz|_]; [|reflexivity].
  exfalso. exact (Hnz item offer Hin E Hz).
Qed.

Lemma add_line_added (product : Product) (cart : list CartItem) :
  Spec.added product cart (add_line product cart).
Proof.
  unfold add_line.
  destruct (List.find _ cart) as [existing|] eqn:Hfind.
  - assert (Hin : Spec.in_cart (product_id product) cart)
      by (apply find_in_cart; rewrite Hfind; now exists existing).
    split; [intros _|intros Hout; contradiction].
    split; [apply length_map|].
    intros i item Hi. rewrite lookup_map, Hi. simpl. f_equal.
    case_bool_decide; destruct (decide _); (reflexivity || contradiction).
  - assert (Hout : ~ Spec.in_cart (product_id product) cart).
    { intros Hin. apply find_in_cart in Hin. rewrite Hfind in Hin.
      now destruct Hin. }
    split; [intros Hin; contradiction|reflexivity].
Qed.

(** C5, as amended: when the stored user is absent or is not an admin,
    adding a product whose id is in the cart raises the quantity of its line
    by exactly 1 and creates no line, and adding a product whose id is not
    in the cart appends exactly one line of quantity 1. *)
Theorem addToCart_customer (user : option User) (product : Product)
    (cart : list CartItem) :
  is_admin user = false ->
  Spec.added product cart (addToCart user product cart).
Proof.
  intros Hrole. unfold addToCart. rewrite Hrole. apply add_line_added.
Qed.

Lemma addToCart_customer_witness :
  is_admin (Some Sample.shopper) = false /\
  Spec.added Sample.laptop Sample.scenario
    (addToCart (Some Sample.shopper) Sample.laptop Sample.scenario).
Proof.
  split; [reflexivity|].
  apply (addToCart_customer (Some Sample.shopper) Sample.laptop Sample.scenario).
  reflexivity.
Defined.

(** C5, as stated for every cart and product, fails: for an admin nothing
    is appended. *)
Lemma addToCart_not_for_every_user :
  ~ (forall (user : option User) (product : Product) (cart : list CartItem),
       Spec.added product cart (addToCart user product cart)).
Proof.
  intros H.
  destruct (H (Some Sample.owner) Sample.laptop []) as [_ Hnew].
  assert (Hout : ~ Spec.in_cart (product_id Sample.laptop) []).
  { intros (item & Hin & _). now apply elem_of_nil in Hin. }
  specialize (Hnew Hout). vm_compute in Hnew. discriminate Hnew.
Qed.

Lemma is_admin_iff (user : option User) :
  is_admin user = true <-> exists u, user = Some u /\ user_role u = admin.
Proof.
  unfold is_admin. destruct user as [u|].
  - rewrite bool_decide_eq_true. split.
    + intros Hrole. now exists u.
    + intros (u' & Hu & Hrole). now injection Hu as ->.
  - split; [discriminate|]. intros (u & Hu & _). discriminate Hu.
Qed.

(** An add that follows the add-to-cart rule never leaves the cart as it
    was. *)
Lemma added_changes (product : Product) (cart : list CartItem) :
  ~ Spec.added product cart cart.
Proof.
  intros [Hold Hnew].
  destruct (List.find (fun item => bool_decide (item_id item = product_id product)) cart)
    as [found|] eqn:Hfind.
  - assert (Hin : Spec.in_cart (product_id product) cart)
      by (apply find_in_cart; rewrite Hfind; now exists found).
    destruct (Hold Hin) as [_ Hlines].
    destruct Hin as (item & Hmem & Hid).
    apply list_elem_of_lookup in Hmem as [i Hi].
    specialize (Hlines i item Hi). rewrite Hi in Hlines.
    destruct (decide (item_id item = product_id product)); [|contradiction].
    injection Hlines as Hitem.
    apply (f_equal quantity) in Hitem. simpl in Hitem.
    assert (Habs : quantity item == quantity item + 1)
      by (rewrite <- Hitem; reflexivity).
    lra.
  - assert (Hout : ~ Spec.in_cart (product_id product) cart).
    { intros Hin. apply find_in_cart in Hin. rewrite Hfind in Hin.
      now destruct Hin. }
    specialize (Hnew Hout).
    apply (f_equal length) in Hnew. rewrite length_app in Hnew.
    simpl in Hnew. lia.
Qed.

(** C9: when the stored user has role admin, add-to-cart leaves the cart
    exactly as it was, whatever the product; and the add-to-cart rule (one
    more unit on the product's line, or one new line of quantity 1) holds
    exactly when the stored user is not an admin, which includes no user
    being stored. *)
Theorem addToCart_admin_noop (user : option User) (product : Product)
    (cart : list CartItem) :
  ((exists u, user = Some u /\ user_role u = admin) ->
     addToCart user product cart = cart)
  /\ (Spec.added product cart (addToCart user product cart)
      <-> ~ exists u, user = Some u /\ user_role u = admin).
Proof.
  rewrite <- is_admin_iff. unfold addToCart.
  destruct (is_admin user).
  - split; [reflexivity|]. split.
    + intros Hadded. exfalso. exact (added_changes _ _ Hadded).
    + intros Hnot. now contradiction Hnot.
  - split; [discriminate|]. split.
    + intros _. discriminate.
    + intros _. apply add_line_added.
Qed.

Lemma addToCart_admin_noop_witness :
  (exists u, Some Sample.owner = Some u /\ user_role u = admin) /\
  addToCart (Some Sample.owner) Sample.phone Sample.scenario = Sample.scenario.
Proof.
  assert (Hrole : exists u, Some Sample.owner = Some u /\ user_role u = admin)
    by (exists Sample.owner; split; reflexivity).
  split; [exact Hrole|].
  exact (proj1 (addToCart_admin_noop (Some Sample.owner) Sample.phone Sample.scenario)
               Hrole).
Defined.

(** *** Quantities *)

Lemma Forall_map_same {A} (P : A -> Prop) (f : A -> A) (l : list A) :
  (forall x, P x -> P (f x)) -> Forall P l -> Forall P (List.map f l).
Proof.
  intros Hf Hl. induction Hl as [|x l Hx _ IH]; simpl; constructor; auto.
Qed.

Lemma Forall_filter_same {A} (P : A -> Prop) (keep : A -> bool) (l : list A) :
  Forall P l -> Forall P (List.filter keep l).
Proof.
  intros Hl. induction Hl as [|x l Hx _ IH]; simpl; [constructor|].
  destruct (keep x); [constructor|]; auto.
Qed.

Lemma step_at_least_one (cart : list CartItem) (op : Op) :
  Forall Spec.at_least_one cart -> Forall Spec.at_least_one (step cart op).
Proof.
  intros Hcart. destruct op as [user product|id|id qty|]; simpl.
  - unfold addToCart. destruct (is_admin user); [exact Hcart|].
    unfold add_line. destruct (List.find _ cart).
    + apply Forall_map_same; [|exact Hcart].
      intros item Hitem. case_bool_decide; [|exact Hitem].
      unfold Spec.at_least_one in *. simpl. lra.
    + apply Forall_app. split; [exact Hcart|].
      constructor; [|constructor]. unfold Spec.at_least_one. simpl. lra.
  - now apply Forall_filter_same.
  - unfold updateQuantity. destruct (Js.lt qty 1) eqn:Hqty.
    + now apply Forall_filter_same.
    + apply lt_false in Hqty. apply Forall_map_same; [|exact Hcart].
      intros item Hitem. case_bool_decide; [|exact Hitem].
      exact Hqty.
  - constructor.
Qed.

Lemma run_from_at_least_one (ops : list Op) (cart : list CartItem) :
  Forall Spec.at_least_one cart -> Forall Spec.at_least_one (fold_left step ops cart).
Proof.
  revert cart. induction ops as [|op ops IH]; intros cart Hcart; simpl.
  - exact Hcart.
  - apply IH. now apply step_at_least_one.
Qed.

Lemma removeFromCart_elem (id : string) (cart : list CartItem) (item : CartItem) :
  item ∈ removeFromCart id cart <-> item ∈ cart /\ item_id item <> id.
Proof.
  unfold removeFromCart.
  rewrite !list_elem_of_In, filter_In, negb_true_iff, bool_decide_eq_false.
  reflexivity.
Qed.

(** C6: after every sequence of cart actions from the empty cart, every
    line has a quantity of at least 1; and an update-quantity to 0 or less
    is the removal of the line: it does what remove-from-cart does, no line
    for the product remains, and the other lines are the ones kept. *)
Theorem quantity_at_least_one :
  (forall ops : list Op, Forall (fun item => 1 <= quantity item) (run ops))
  /\ (forall (id : string) (qty : Q) (cart : list CartItem),
        qty <= 0 ->
        updateQuantity id qty cart = removeFromCart id cart
        /\ ~ Spec.in_cart id (updateQuantity id qty cart)
        /\ (forall item,
              item ∈ updateQuantity id qty cart <-> item ∈ cart /\ item_id item <> id)).
Proof.
  split.
  - intros ops. apply (run_from_at_least_one ops []). constructor.
  - intros id qty cart Hqty.
    assert (Hsame : updateQuantity id qty cart = removeFromCart id cart).
    { unfold updateQuantity.
      assert (Hlt : Js.lt qty 1 = true) by (apply lt_true; lra).
      now rewrite Hlt. }
    rewrite Hsame. split; [reflexivity|]. split.
    + intros (item & Hin & Hid). apply removeFromCart_elem in Hin as [_ Hne].
      contradiction.
    + intros item. apply removeFromCart_elem.
Qed.

Lemma quantity_at_least_one_witness :
  Forall (fun item => 1 <= quantity item)
         (run [Add None Sample.laptop; Add None Sample.laptop; Update "laptop" 3])
  /\ (0 <= 0
      /\ updateQuantity "laptop" 0 Sample.scenario
         = removeFromCart "laptop" Sample.scenario
      /\ ~ Spec.in_cart "laptop" (updateQuantity "laptop" 0 Sample.scenario)
      /\ (forall item,
            item ∈ updateQuantity "laptop" 0 Sample.scenario
            <-> item ∈ Sample.scenario /\ item_id item <> "laptop")).
Proof.
  split; [apply (proj1 quantity_at_least_one)|].
  assert (Hqty : 0 <= 0) by lra.
  split; [exact Hqty|].
  exact (proj2 quantity_at_least_one "laptop" 0 Sample.scenario Hqty).
Defined.

End CartProperties.

(** ** Checkout *)

Section CheckoutProperties.

Import Checkout.

Lemma totalDeliveryFee_sum (cart : list CartItem) :
  totalDeliveryFee cart == Spec.sum_over (Spec.line Spec.unit_fee) cart.
Proof.
  unfold totalDeliveryFee.
  rewrite (reduce_sum (fun item =>
             Js.or_num (product_deliveryFee (item_product item)) 0 * quantity item)).
  rewrite Qplus_0_l. apply sum_over_ext. intros item _.
  unfold Spec.line. now rewrite or_num_unit_fee.
Qed.

(** C8: for every cart, the delivery fee is the sum over the lines of the
    per-unit delivery fee times the quantity, and the grand total is the
    cart subtotal plus that fee; the scenario of two 1000 items with a fee
    of 100 each and one item offered at 800 with no fee gives a subtotal of
    2800, a delivery fee of 200 and a grand total of 3000. *)
Theorem checkout_totals (cart : list CartItem) :
  totalDeliveryFee cart == Spec.sum_over (Spec.line Spec.unit_fee) cart
  /\ grandTotal cart
     == Cart.cartTotal cart + Spec.sum_over (Spec.line Spec.unit_fee) cart
  /\ (Cart.cartTotal Sample.scenario == 2800
      /\ totalDeliveryFee Sample.scenario == 200
      /\ grandTotal Sample.scenario == 3000).
Proof.
  split; [apply totalDeliveryFee_sum|].
  split.
  - unfold grandTotal. now rewrite totalDeliveryFee_sum.
  - repeat split; reflexivity.
Qed.

End CheckoutProperties.


(** ** Reviews and the aggregate rating *)

Section ReviewProperties.

Import Firebase.

Lemma len_positive {A} (l : list A) : Js.gt (len l) 0 = true <-> l <> [].
Proof.
  unfold Js.gt. rewrite lt_true. unfold len. split.
  - intros Hlen ->. vm_compute in Hlen. discriminate Hlen.
  - intros Hne. destruct l as [|x l]; [contradiction|].
    rewrite <- (Zlt_Qlt 0). simpl length. lia.
Qed.

(** What both review methods store: the mean of the ratings they kept. *)
Lemma total_over_len (rs : list Review) :
  rs <> [] ->
  Js.reduce (fun acc r => acc + review_rating r) 0 rs / len rs == Spec.mean_rating rs.
Proof.
  intros Hne. rewrite (reduce_sum review_rating), Qplus_0_l.
  unfold Spec.mean_rating, len. destruct rs; [contradiction|reflexivity].
Qed.

Lemma addReview_stores (newId : string) (now : Z) (productId : string)
    (review : ReviewInput) (db : Firestore) (product : Product) :
  products db !! productId = Some product ->
  exists (result stored : Product) (db' : Firestore) (rs : list Review),
    addReview newId now productId review db = (Resolved result, db')
    /\ products db' !! productId = Some stored
    /\ product_reviews stored = Some rs
    /\ rs = default [] (product_reviews product)
            ++ [ {| review_id := newId;
                    review_userId := input_userId review;
                    review_userName := input_userName review;
                    review_rating := input_rating review;
                    review_comment := input_comment review;
                    review_date := now |} ]
    /\ product_rating stored == Spec.mean_rating rs
    /\ product_rating result == Spec.mean_rating rs.
Proof.
  intros Hdoc. unfold addReview, bind, getDoc, updateDoc, ret. simpl.
  repeat (rewrite Hdoc; simpl).
  eexists _, _, _, _. split; [reflexivity|]. simpl.
  split; [apply lookup_insert_eq|]. simpl.
  split; [reflexivity|]. split; [reflexivity|].
  split; apply total_over_len; intros Habs;
    apply app_eq_nil in Habs as [_ Habs]; discriminate Habs.
Qed.

Lemma deleteReview_stores (productId reviewId : string) (db : Firestore)
    (product : Product) :
  products db !! productId = Some product ->
  exists (result stored : Product) (db' : Firestore) (rs : list Review),
    deleteReview productId reviewId db = (Resolved result, db')
    /\ products db' !! productId = Some stored
    /\ product_reviews stored = Some rs
    /\ rs = List.filter (fun r => negb (bool_decide (review_id r = reviewId)))
                        (default [] (product_reviews product))
    /\ product_rating stored == Spec.mean_rating rs
    /\ product_rating result == Spec.mean_rating rs.
Proof.
  intros Hdoc. unfold deleteReview, bind, getDoc, updateDoc, ret. simpl.
  repeat (rewrite Hdoc; simpl).
  eexists _, _, _, _. split; [reflexivity|]. simpl.
  split; [apply lookup_insert_eq|]. simpl.
  split; [reflexivity|]. split; [reflexivity|].
  set (rs := List.filter _ _).
  assert (Hmean : (if Js.gt (len rs) 0
                   then Js.reduce (fun acc r => acc + review_rating r) 0 rs / len rs
                   else 0) == Spec.mean_rating rs).
  { destruct (Js.gt (len rs) 0) eqn:Hlen.
    - apply total_over_len. now apply len_positive.
    - destruct rs as [|r rs']; [reflexivity|].
      assert (Hpos : Js.gt (len (r :: rs')) 0 = true)
        by (apply len_positive; discriminate).
      congruence. }
  split; exact Hmean.
Qed.

(** C7: after every addReview and every deleteReview on an existing
    product, the stored rating is the arithmetic mean of the ratings of the
    stored reviews, and 0 when no review is left; reviews rated 4 and 2 give
    3, deleting the 4 gives 2, deleting both gives 0. *)
Theorem rating_is_mean (db : Firestore) (productId : string) (product : Product) :
  products db !! productId = Some product ->
  (forall newId now review,
      exists result stored db' rs,
        addReview newId now productId review db = (Resolved result, db')
        /\ products db' !! productId = Some stored
        /\ product_reviews stored = Some rs
        /\ product_rating stored == Spec.mean_rating rs)
  /\ (forall reviewId,
        exists result stored db' rs,
          deleteReview productId reviewId db = (Resolved result, db')
          /\ products db' !! productId = Some stored
          /\ product_reviews stored = Some rs
          /\ product_rating stored == Spec.mean_rating rs
          /\ (rs = [] -> product_rating stored == 0))
  /\ (let r1 := Sample.review "r1" 4 in
      let r2 := Sample.review "r2" 2 in
      let rated m db := Sample.stored_rating "laptop" (snd (m db)) in
      option_Forall2 Qeq
        (rated (addReview "r2" 0 "laptop" (Sample.opinion 2)) (Sample.reviewed [r1]))
        (Some 3)
      /\ option_Forall2 Qeq
           (rated (deleteReview "laptop" "r1") (Sample.reviewed [r1; r2])) (Some 2)
      /\ option_Forall2 Qeq
           (rated (deleteReview "laptop" "r2") (Sample.reviewed [r2])) (Some 0)).
Proof.
  intros Hdoc. split; [|split].
  - intros newId now review.
    destruct (addReview_stores newId now productId review db product Hdoc)
      as (result & stored & db' & rs & Hrun & Hget & Hrs & _ & Hmean & _).
    now exists result, stored, db', rs.
  - intros reviewId.
    destruct (deleteReview_stores productId reviewId db product Hdoc)
      as (result & stored & db' & rs & Hrun & Hget & Hrs & _ & Hmean & _).
    exists result, stored, db', rs. repeat split; try assumption.
    intros ->. exact Hmean.
  - cbv zeta. repeat split; vm_compute; constructor; reflexivity.
Qed.

Lemma rating_is_mean_witness :
  products Sample.store !! "laptop" = Some Sample.laptop
  /\ exists result stored db' rs,
       deleteReview "laptop" "r1" Sample.store = (Resolved result, db')
       /\ products db' !! "laptop" = Some stored
       /\ product_reviews stored = Some rs
       /\ product_rating stored == Spec.mean_rating rs
       /\ (rs = [] -> product_rating stored == 0).
Proof.
  assert (Hdoc : products Sample.store !! "laptop" = Some Sample.laptop)
    by reflexivity.
  split; [exact Hdoc|].
  exact (proj1 (proj2 (rating_is_mean Sample.store "laptop" Sample.laptop Hdoc)) "r1").
Defined.

End ReviewProperties.

(** ** Orders: status updates and the cancellation window *)

Section OrderProperties.

Import Firebase.

(** The age test of [cancelOrder], in milliseconds. *)
Lemma over_24_hours (timeDiff : Z) :
  Js.gt (inject_Z timeDiff / msPerHour) 24 = false <-> (timeDiff <= Spec.window_ms)%Z.
Proof.
  unfold Js.gt. rewrite lt_false.
  unfold Qdiv, msPerHour, Spec.window_ms.
  set (perMs := / (1000 * 60 * 60)). vm_compute in perMs. subst perMs.
  unfold Qle. cbn. lia.
Qed.

Lemma updateOrderStatus_existing (ignoreUndefinedProperties : bool) (now : Z)
    (orderId : string) (status : OrderStatus) (comment : string) (db : Firestore)
    (order : Order) :
  orders db !! orderId = Some order ->
  updateOrderStatus ignoreUndefinedProperties now orderId status (Some comment) db =
    (Resolved tt,
     {| products := products db;
        orders :=
          <[orderId :=
              set_statusHistory
                (default [] (order_statusHistory order)
                   ++ [ {| update_status := status_name status;
                           update_comment := Some comment;
                           update_timestamp := now |} ])
                (set_adminComment (Some comment) (set_status status order))]>
            (orders db) |}).
Proof.
  intros Hdoc. unfold updateOrderStatus, bind, getDoc, updateDoc. simpl.
  now repeat (rewrite Hdoc; simpl).
Qed.

(** A status update that passes no comment: written without the comment when
    the SDK ignores undefined values, rejected otherwise. *)
Lemma updateOrderStatus_uncommented (ignoreUndefinedProperties : bool) (now : Z)
    (orderId : string) (status : OrderStatus) (db : Firestore) (order : Order) :
  orders db !! orderId = Some order ->
  updateOrderStatus ignoreUndefinedProperties now orderId status None db =
    if ignoreUndefinedProperties
    then (Resolved tt,
          {| products := products db;
             orders :=
               <[orderId :=
                   set_statusHistory
                     (default [] (order_statusHistory order)
                        ++ [ {| update_status := status_name status;
                                update_comment := None;
                                update_timestamp := now |} ])
                     (set_status status order)]>
                 (orders db) |})
    else (Rejected "Unsupported field value: undefined", db).
Proof.
  intros Hdoc.
  unfold updateOrderStatus, undefinedValue, bind, getDoc, updateDoc, ret, throw. simpl.
  rewrite Hdoc. simpl. destruct ignoreUndefinedProperties; simpl; [|reflexivity].
  now rewrite Hdoc.
Qed.

Lemma updateOrderStatus_missing (ignoreUndefinedProperties : bool) (now : Z)
    (orderId : string) (status : OrderStatus)
    (comment : option string) (db : Firestore) :
  orders db !! orderId = None ->
  updateOrderStatus ignoreUndefinedProperties now orderId status comment db
  = (Resolved tt, db).
Proof.
  intros Hdoc. unfold updateOrderStatus, bind, getDoc, ret. simpl.
  now rewrite Hdoc.
Qed.

(** C1: for every stored order, cancelOrder resolves to a boolean, never
    rejects, and the boolean is true if and only if the order is Pending and
    at most 24 hours have passed since its createdAt; when it is false the
    store, and so the order document, is unchanged. *)
Theorem cancelOrder_window (now now' : Z) (orderId : string) (db : Firestore)
    (order : Order) :
  orders db !! orderId = Some order ->
  exists (ok : bool) (db' : Firestore),
    cancelOrder now now' orderId db = (Resolved ok, db')
    /\ (ok = true <->
        order_status order = Pending
        /\ (now - order_createdAt order <= Spec.window_ms)%Z)
    /\ (ok = false -> db' = db)
    /\ (ok = true ->
        exists order', orders db' !! orderId = Some order'
                       /\ order_status order' = Cancelled).
Proof.
  intros Hdoc. unfold cancelOrder, bind, getDoc, updateDoc, ret. simpl.
  rewrite Hdoc. simpl.
  destruct (Js.gt (inject_Z (now - order_createdAt order) / msPerHour) 24) eqn:Hage;
    simpl.
  - exists false, db. split; [reflexivity|]. split; [|split]; try discriminate.
    + split; [discriminate|]. intros [_ Hwin].
      apply over_24_hours in Hwin. congruence.
    + reflexivity.
  - apply over_24_hours in Hage.
    case_bool_decide as Hstatus; simpl.
    + rewrite Hdoc. simpl. eexists true, _. split; [reflexivity|].
      split; [|split]; try discriminate.
      * split; [intros _; now split|reflexivity].
      * intros _. eexists. split; [apply lookup_insert_eq|reflexivity].
    + exists false, db. split; [reflexivity|]. split; [|split]; try discriminate.
      * split; [discriminate|]. intros [Hpending _]. contradiction.
      * reflexivity.
Qed.

Lemma cancelOrder_window_witness :
  orders Sample.store !! "o1" = Some (Sample.placed 0)
  /\ exists ok db',
       cancelOrder 86400000 86400005 "o1" Sample.store = (Resolved ok, db')
       /\ (ok = true <->
           order_status (Sample.placed 0) = Pending
           /\ (86400000 - order_createdAt (Sample.placed 0) <= Spec.window_ms)%Z)
       /\ (ok = false -> db' = Sample.store)
       /\ (ok = true ->
           exists order', orders db' !! "o1" = Some order'
                          /\ order_status order' = Cancelled).
Proof.
  assert (Hdoc : orders Sample.store !! "o1" = Some (Sample.placed 0))
    by reflexivity.
  split; [exact Hdoc|].
  exact (cancelOrder_window 86400000 86400005 "o1" Sample.store (Sample.placed 0) Hdoc).
Defined.

(** An order that is not stored cannot be cancelled either, and nothing is
    written. *)
Lemma cancelOrder_missing (now now' : Z) (orderId : string) (db : Firestore) :
  orders db !! orderId = None ->
  cancelOrder now now' orderId db = (Resolved false, db).
Proof.
  intros Hdoc. unfold cancelOrder, bind, getDoc, ret. simpl. now rewrite Hdoc.
Qed.

(** C2, as amended: addReview and deleteReview on a product that is not
    stored reject with the error "Product not found" and write nothing;
    updateOrderStatus on an order that is not stored resolves normally and
    writes nothing, whatever the SDK setting. *)
Theorem missing_document (db : Firestore) (id : string) :
  (products db !! id = None ->
     (forall newId now review,
        addReview newId now id review db = (Rejected "Product not found", db))
     /\ (forall reviewId,
           deleteReview id reviewId db = (Rejected "Product not found", db)))
  /\ (orders db !! id = None ->
        forall ignoreUndefinedProperties now status comment,
          updateOrderStatus ignoreUndefinedProperties now id status comment db
          = (Resolved tt, db)).
Proof.
  split.
  - intros Hdoc. split; intros; unfold addReview, deleteReview, bind, getDoc, throw;
      simpl; now rewrite Hdoc.
  - intros Hdoc ignoreUndefinedProperties now status comment.
    now apply updateOrderStatus_missing.
Qed.

Lemma missing_document_witness :
  products Sample.empty_store !! "p9" = None
  /\ orders Sample.empty_store !! "p9" = None
  /\ addReview "r1" 0 "p9" (Sample.opinion 5) Sample.empty_store
     = (Rejected "Product not found", Sample.empty_store)
  /\ updateOrderStatus false 0 "p9" Shipped (Some "sent") Sample.empty_store
     = (Resolved tt, Sample.empty_store).
Proof.
  assert (Hp : products Sample.empty_store !! "p9" = None) by reflexivity.
  assert (Ho : orders Sample.empty_store !! "p9" = None) by reflexivity.
  split; [exact Hp|]. split; [exact Ho|]. split.
  - exact (proj1 (proj1 (missing_document Sample.empty_store "p9") Hp)
                 "r1" 0%Z (Sample.opinion 5)).
  - exact (proj2 (missing_document Sample.empty_store "p9") Ho false 0%Z Shipped
                 (Some "sent")).
Defined.

(** C2, as stated, fails: updateOrderStatus on a missing order raises
    nothing. *)
Lemma updateOrderStatus_missing_is_silent :
  ~ (forall ignoreUndefinedProperties now orderId status comment db,
       orders db !! orderId = None ->
       Spec.raises
         (updateOrderStatus ignoreUndefinedProperties now orderId status comment) db).
Proof.
  intros H.
  destruct (H false 0%Z "o9" Shipped (Some "sent") Sample.empty_store eq_refl)
    as (message & db' & Hrun).
  vm_compute in Hrun. discriminate Hrun.
Qed.






End OrderProperties.

(** * Further properties of the code *)

(** ** The cart, continued *)

Section CartInvariants.

Import Cart.

Lemma sum_over_app {A} (f : A -> Q) (l1 l2 : list A) :
  Spec.sum_over f (l1 ++ l2) == Spec.sum_over f l1 + Spec.sum_over f l2.
Proof.
  induction l1 as [|x l1 IH]; simpl; [ring|]. rewrite IH. ring.
Qed.

(** A sum splits along any test into the part kept and the part dropped. *)
Lemma sum_over_filter {A} (f : A -> Q) (keep : A -> bool) (l : list A) :
  Spec.sum_over f l
  == Spec.sum_over f (List.filter keep l)
     + Spec.sum_over f (List.filter (fun x => negb (keep x)) l).
Proof.
  induction l as [|x l IH]; simpl; [ring|].
  destruct (keep x); simpl; rewrite IH; ring.
Qed.

Lemma ids_of_map (f : CartItem -> CartItem) (cart : list CartItem) :
  (forall item, item_id (f item) = item_id item) ->
  List.map item_id (List.map f cart) = List.map item_id cart.
Proof.
  intros Hid. induction cart as [|x l IH]; simpl; [reflexivity|].
  now rewrite Hid, IH.
Qed.

Lemma ids_of_filter (keep : CartItem -> bool) (cart : list CartItem) :
  NoDup (List.map item_id cart) -> NoDup (List.map item_id (List.filter keep cart)).
Proof.
  induction cart as [|x l IH]; simpl; intros Hnd; [exact Hnd|].
  apply NoDup_cons in Hnd as [Hx Hl].
  destruct (keep x); simpl; [|now apply IH].
  apply NoDup_cons. split; [|now apply IH].
  intros Hin. apply Hx.
  apply list_elem_of_In, in_map_iff in Hin as (y & Hy & Hiny).
  apply filter_In in Hiny as [Hiny _].
  apply list_elem_of_In, in_map_iff. now exists y.
Qed.

Lemma step_distinct_ids (cart : list CartItem) (op : Op) :
  NoDup (List.map item_id cart) -> NoDup (List.map item_id (step cart op)).
Proof.
  intros Hnd. destruct op as [user product|id|id qty|]; simpl.
  - unfold addToCart. destruct (is_admin user); [exact Hnd|].
    unfold add_line.
    destruct (List.find _ cart) as [found|] eqn:Hfind.
    + rewrite ids_of_map; [exact Hnd|].
      intros item. now case_bool_decide.
    + rewrite map_app. simpl. apply NoDup_app. split; [exact Hnd|].
      split; [|apply NoDup_singleton].
      intros id Hin Hnew. apply list_elem_of_singleton in Hnew. subst id.
      apply list_elem_of_In, in_map_iff in Hin as (item & Hid & Hitem).
      pose proof (find_none _ _ Hfind item Hitem) as Hno. simpl in Hno.
      apply bool_decide_eq_false in Hno. contradiction.
  - now apply ids_of_filter.
  - unfold updateQuantity. destruct (Js.lt qty 1).
    + now apply ids_of_filter.
    + rewrite ids_of_map; [exact Hnd|].
      intros item. now case_bool_decide.
  - apply NoDup_nil_2.
Qed.

Lemma run_from_distinct_ids (ops : list Op) (cart : list CartItem) :
  NoDup (List.map item_id cart) -> NoDup (List.map item_id (fold_left step ops cart)).
Proof.
  revert cart. induction ops as [|op ops IH]; intros cart Hnd; simpl.
  - exact Hnd.
  - apply IH. now apply step_distinct_ids.
Qed.

(** X1: after every sequence of cart actions from the empty cart, no two
    lines are for the same product id. *)
Theorem cart_ids_distinct (ops : list Op) :
  NoDup (List.map item_id (run ops))
  /\ (forall i j a b,
        run ops !! i = Some a -> run ops !! j = Some b ->
        item_id a = item_id b -> i = j).
Proof.
  assert (Hnd : NoDup (List.map item_id (run ops)))
    by (apply (run_from_distinct_ids ops []); apply NoDup_nil_2).
  split; [exact Hnd|].
  intros i j a b Hi Hj Hid.
  apply (NoDup_lookup (List.map item_id (run ops)) i j (item_id a)); [exact Hnd| |].
  - rewrite lookup_map, Hi. reflexivity.
  - rewrite lookup_map, Hj. simpl. now rewrite Hid.
Qed.

(** X2: removing a product leaves no line for it, keeps every other line, and
    lowers the total by the worth of the lines removed. *)
Theorem removeFromCart_total (id : string) (cart : list CartItem) :
  ~ Spec.in_cart id (removeFromCart id cart)
  /\ (forall item, item ∈ removeFromCart id cart <-> item ∈ cart /\ item_id item <> id)
  /\ cartTotal (removeFromCart id cart)
     == cartTotal cart
        - Spec.sum_over (Spec.line Spec.unit_price)
            (List.filter (fun item => bool_decide (item_id item = id)) cart).
Proof.
  assert (Hmem : forall item,
             item ∈ removeFromCart id cart <-> item ∈ cart /\ item_id item <> id).
  { intros item. unfold removeFromCart.
    rewrite !list_elem_of_In, filter_In, negb_true_iff, bool_decide_eq_false.
    reflexivity. }
  split; [|split; [exact Hmem|]].
  - intros (item & Hin & Hid). apply Hmem in Hin as [_ Hne]. contradiction.
  - rewrite !cartTotal_sum. unfold removeFromCart.
    rewrite (sum_over_filter (Spec.line Spec.unit_price)
               (fun item => negb (bool_decide (item_id item = id))) cart).
    assert (Hsame :
      List.filter (fun x => negb (negb (bool_decide (item_id x = id)))) cart
      = List.filter (fun item => bool_decide (item_id item = id)) cart).
    { apply filter_ext. intros x. apply negb_involutive. }
    rewrite Hsame. ring.
Qed.

Lemma map_no_match (id : string) (f : CartItem -> CartItem) (cart : list CartItem) :
  id ∉ List.map item_id cart ->
  List.map (fun item => if bool_decide (item_id item = id) then f item else item) cart
  = cart.
Proof.
  induction cart as [|x l IH]; simpl; intros Hno; [reflexivity|].
  apply not_elem_of_cons in Hno as [Hx Hl].
  rewrite IH by exact Hl.
  case_bool_decide; [congruence|reflexivity].
Qed.

Lemma one_more_total (id : string) (cart : list CartItem) (existing : CartItem) :
  NoDup (List.map item_id cart) ->
  List.find (fun item => bool_decide (item_id item = id)) cart = Some existing ->
  Spec.sum_over (Spec.line Spec.unit_price)
    (List.map (fun item =>
                 if bool_decide (item_id item = id)
                 then {| item_product := item_product item;
                         quantity := quantity item + 1 |}
                 else item) cart)
  == Spec.sum_over (Spec.line Spec.unit_price) cart
     + Spec.unit_price (item_product existing).
Proof.
  induction cart as [|x l IH]; simpl; intros Hnd Hfind; [discriminate|].
  apply NoDup_cons in Hnd as [Hx Hl].
  case_bool_decide as Hid.
  - injection Hfind as <-. subst id.
    rewrite (map_no_match (item_id x)) by exact Hx.
    unfold Spec.line at 1 3. simpl. ring.
  - rewrite (IH Hl Hfind). ring.
Qed.

(** X3: in a cart built by cart actions, an add by a user who is not an admin
    raises the total by one unit price: that of the line already in the cart
    when there is one, that of the product added otherwise. *)
Theorem addToCart_total (ops : list Op) (user : option User) (product : Product) :
  is_admin user = false ->
  cartTotal (addToCart user product (run ops))
  == cartTotal (run ops)
     + match List.find (fun item => bool_decide (item_id item = product_id product))
                       (run ops) with
       | Some existing => Spec.unit_price (item_product existing)
       | None => Spec.unit_price product
       end.
Proof.
  intros Hrole. unfold addToCart. rewrite Hrole.
  assert (Hnd : NoDup (List.map item_id (run ops)))
    by (apply (run_from_distinct_ids ops []); apply NoDup_nil_2).
  rewrite !cartTotal_sum. unfold add_line.
  destruct (List.find _ (run ops)) as [existing|] eqn:Hfind.
  - now apply one_more_total.
  - rewrite sum_over_app. simpl. unfold Spec.line at 2. simpl. ring.
Qed.

Lemma addToCart_total_witness :
  is_admin (Some Sample.shopper) = false
  /\ cartTotal (addToCart (Some Sample.shopper) Sample.phone (run [Add None Sample.phone]))
     == cartTotal (run [Add None Sample.phone])
        + match List.find
                  (fun item => bool_decide (item_id item = product_id Sample.phone))
                  (run [Add None Sample.phone]) with
          | Some existing => Spec.unit_price (item_product existing)
          | None => Spec.unit_price Sample.phone
          end.
Proof.
  split; [reflexivity|].
  apply (addToCart_total [Add None Sample.phone] (Some Sample.shopper) Sample.phone).
  reflexivity.
Defined.

Lemma count_at_least_length (cart : list CartItem) :
  Forall Spec.at_least_one cart ->
  Firebase.len cart <= Spec.sum_over quantity cart.
Proof.
  unfold Firebase.len.
  induction 1 as [|x l Hx _ IH]; simpl length; simpl Spec.sum_over.
  - apply Qle_refl.
  - rewrite Nat2Z.inj_succ, <- Z.add_1_l, inject_Z_plus.
    unfold Spec.at_least_one in Hx.
    change (inject_Z 1) with 1. lra.
Qed.

(** X4: the count on the cart icon is the sum of the quantities; in a cart
    built by cart actions it is at least the number of lines, so it is 0
    exactly when the cart is empty. *)
Theorem cartCount_lines (ops : list Op) :
  Shop.cartCount (run ops) == Spec.sum_over quantity (run ops)
  /\ Firebase.len (run ops) <= Shop.cartCount (run ops)
  /\ (Shop.cartCount (run ops) == 0 <-> run ops = []).
Proof.
  assert (Hsum : Shop.cartCount (run ops) == Spec.sum_over quantity (run ops)).
  { unfold Shop.cartCount. rewrite (reduce_sum quantity). ring. }
  assert (Hlen : Firebase.len (run ops) <= Shop.cartCount (run ops)).
  { rewrite Hsum. apply count_at_least_length.
    apply (run_from_at_least_one ops []). constructor. }
  split; [exact Hsum|]. split; [exact Hlen|].
  split.
  - intros Hzero. destruct (run ops) as [|x l] eqn:Hcart; [reflexivity|].
    exfalso. rewrite Hzero in Hlen. unfold Firebase.len in Hlen.
    rewrite <- (Zle_Qle _ 0) in Hlen. simpl length in Hlen. lia.
  - intros ->. reflexivity.
Qed.

(** X5: every product of the flash sale is a listed product with an offer
    price that is not zero and is below its price, and that offer price is
    what the cart charges for it. *)
Theorem flashSale_cheaper (products : list Product) (p : Product) :
  p ∈ Shop.flashSaleProducts products ->
  p ∈ products
  /\ (exists offer, product_offerPrice p = Some offer
                    /\ ~ offer == 0 /\ offer < product_price p
                    /\ Spec.unit_price p = offer)
  /\ cartTotal (add_line p []) < product_price p.
Proof.
  unfold Shop.flashSaleProducts.
  rewrite list_elem_of_In, filter_In, <- list_elem_of_In.
  intros [Hin Htest].
  destruct (product_offerPrice p) as [offer|] eqn:Hoffer; [|discriminate].
  apply andb_true_iff in Htest as [Hnz Hlt].
  apply negb_true_iff in Hnz. apply lt_true in Hlt.
  assert (Hnz' : ~ offer == 0).
  { intros Hz. apply falsy_iff in Hz. congruence. }
  assert (Hunit : Spec.unit_price p = offer).
  { unfold Spec.unit_price. rewrite Hoffer.
    destruct (Qeq_dec offer 0); [contradiction|reflexivity]. }
  split; [exact Hin|]. split.
  - exists offer. repeat split; assumption.
  - rewrite cartTotal_sum. unfold add_line. simpl.
    unfold Spec.line. simpl. rewrite Hunit. lra.
Qed.

Lemma flashSale_cheaper_witness :
  Sample.phone ∈ Shop.flashSaleProducts [Sample.laptop; Sample.phone; Sample.sticker]
  /\ cartTotal (add_line Sample.phone []) < product_price Sample.phone.
Proof.
  assert (Hin : Sample.phone
                ∈ Shop.flashSaleProducts [Sample.laptop; Sample.phone; Sample.sticker])
    by (vm_compute; apply list_elem_of_here).
  split; [exact Hin|].
  exact (proj2 (proj2 (flashSale_cheaper _ _ Hin))).
Defined.

End CartInvariants.

(** ** Sorting *)

Section Sorting.

Context {A : Type} (key : A -> Z).

(** The comparator [(a, b) => key(b) - key(a)] puts the greatest key first. *)

Lemma insert_Permutation (x : A) (l : list A) :
  Arr.insert (fun a b : A => (key b - key a)%Z) x l ≡ₚ x :: l.
Proof.
  induction l as [|y l IH]; simpl; [reflexivity|].
  destruct (0 <? (fun a b : A => (key b - key a)%Z) x y)%Z; [|reflexivity].
  rewrite IH. apply Permutation_swap.
Qed.

Lemma sort_Permutation (l : list A) : Arr.sort (fun a b : A => (key b - key a)%Z) l ≡ₚ l.
Proof.
  induction l as [|x l IH]; [reflexivity|].
  change (Arr.insert (fun a b : A => (key b - key a)%Z) x (Arr.sort (fun a b : A => (key b - key a)%Z) l) ≡ₚ x :: l).
  now rewrite insert_Permutation, IH.
Qed.

Lemma insert_sorted (x : A) (l : list A) :
  StronglySorted (fun a b : A => (key b <= key a)%Z) l -> StronglySorted (fun a b : A => (key b <= key a)%Z) (Arr.insert (fun a b : A => (key b - key a)%Z) x l).
Proof.
  induction 1 as [|y l Hl IH Hy]; simpl.
  - repeat constructor.
  - destruct (0 <? (fun a b : A => (key b - key a)%Z) x y)%Z eqn:Hcmp.
    + apply Z.ltb_lt in Hcmp. constructor; [exact IH|].
      rewrite insert_Permutation. constructor; [|exact Hy].
      simpl in *. lia.
    + apply Z.ltb_ge in Hcmp. constructor; [now constructor|].
      constructor; [simpl in *; lia|].
      eapply Forall_impl; [exact Hy|].
      intros z Hz. simpl in *. lia.
Qed.

Lemma sort_sorted (l : list A) : StronglySorted (fun a b : A => (key b <= key a)%Z) (Arr.sort (fun a b : A => (key b - key a)%Z) l).
Proof.
  induction l as [|x l IH]; [constructor|].
  change (StronglySorted (fun a b : A => (key b <= key a)%Z) (Arr.insert (fun a b : A => (key b - key a)%Z) x (Arr.sort (fun a b : A => (key b - key a)%Z) l))).
  now apply insert_sorted.
Qed.

Lemma sorted_lookup (R : A -> A -> Prop) (l : list A) (i j : nat) (a b : A) :
  StronglySorted R l -> (i < j)%nat -> l !! i = Some a -> l !! j = Some b -> R a b.
Proof.
  intros Hsorted. revert i j.
  induction Hsorted as [|x l Hl IH Hx]; intros i j Hij Hi Hj; [discriminate|].
  destruct j as [|j]; [lia|]. simpl in Hj.
  destruct i as [|i]; simpl in Hi.
  - injection Hi as <-. rewrite Forall_forall in Hx.
    apply Hx. eapply list_elem_of_lookup_2. exact Hj.
  - apply (IH i j); [lia|assumption..].
Qed.

(** A sort on [key], greatest first, puts the keys in (fun a b : A => (key b - key a)%Z) order and
    keeps the elements. *)
Lemma sort_descending (l : list A) :
  Arr.sort (fun a b => (key b - key a)%Z) l ≡ₚ l
  /\ forall i j a b,
       (i < j)%nat ->
       Arr.sort (fun a b => (key b - key a)%Z) l !! i = Some a ->
       Arr.sort (fun a b => (key b - key a)%Z) l !! j = Some b ->
       (key b <= key a)%Z.
Proof.
  split; [apply sort_Permutation|].
  intros i j a b Hij Hi Hj.
  exact (sorted_lookup (fun a b : A => (key b <= key a)%Z) _ i j a b (sort_sorted l) Hij Hi Hj).
Qed.

End Sorting.

(** ** Orders, continued *)

Section OrderLifecycle.

Import Firebase Service.

Lemma cancelOrder_existing (now now' : Z) (orderId : string) (db : Firestore)
    (order : Order) :
  orders db !! orderId = Some order ->
  cancelOrder now now' orderId db =
    if Js.gt (inject_Z (now - order_createdAt order) / msPerHour) 24
       || negb (bool_decide (order_status order = Pending))
    then (Resolved false, db)
    else (Resolved true,
          {| products := products db;
             orders :=
               <[orderId :=
                   set_statusHistory
                     (default [] (order_statusHistory order)
                        ++ [ {| update_status := "Cancelled";
                                update_comment := Some "Cancelled by user";
                                update_timestamp := now' |} ])
                     (set_status Cancelled order)]>
                 (orders db) |}).
Proof.
  intros Hdoc. unfold cancelOrder, bind, getDoc, updateDoc, ret. simpl.
  rewrite Hdoc. simpl.
  destruct (Js.gt _ 24 || negb _); [reflexivity|].
  simpl. now rewrite Hdoc.
Qed.

(** X7: a successful cancellation appends exactly one entry, "Cancelled" with
    the comment "Cancelled by user", and sets the status; adminComment and
    every other property of the order, every other order and every product
    are as they were. *)
Theorem cancelOrder_frame (now now' : Z) (orderId : string) (db db' : Firestore)
    (order : Order) :
  orders db !! orderId = Some order ->
  cancelOrder now now' orderId db = (Resolved true, db') ->
  exists order',
    orders db' !! orderId = Some order'
    /\ order_status order' = Cancelled
    /\ order_statusHistory order' =
         Some (default [] (order_statusHistory order)
                 ++ [ {| update_status := "Cancelled";
                         update_comment := Some "Cancelled by user";
                         update_timestamp := now' |} ])
    /\ order_adminComment order' = order_adminComment order
    /\ order_userId order' = order_userId order
    /\ order_items order' = order_items order
    /\ order_totalAmount order' = order_totalAmount order
    /\ order_deliveryFee order' = order_deliveryFee order
    /\ order_createdAt order' = order_createdAt order
    /\ order_shippingDetails order' = order_shippingDetails order
    /\ order_paymentMethod order' = order_paymentMethod order
    /\ order_customerEmail order' = order_customerEmail order
    /\ order_customerPhone order' = order_customerPhone order
    /\ (forall other, other <> orderId -> orders db' !! other = orders db !! other)
    /\ products db' = products db.
Proof.
  intros Hdoc Hrun. rewrite (cancelOrder_existing _ _ _ _ _ Hdoc) in Hrun.
  destruct (Js.gt _ 24 || negb _); [discriminate|].
  injection Hrun as <-. simpl.
  eexists. split; [apply lookup_insert_eq|]. simpl.
  repeat (split; [reflexivity|]).
  split; [|reflexivity].
  intros other Hother. now apply lookup_insert_ne.
Qed.

Lemma cancelOrder_frame_witness :
  orders Sample.store !! "o1" = Some (Sample.placed 0)
  /\ cancelOrder 5 6 "o1" Sample.store
     = (Resolved true, snd (cancelOrder 5 6 "o1" Sample.store))
  /\ exists order',
       orders (snd (cancelOrder 5 6 "o1" Sample.store)) !! "o1" = Some order'
       /\ order_status order' = Cancelled.
Proof.
  assert (Hdoc : orders Sample.store !! "o1" = Some (Sample.placed 0))
    by reflexivity.
  assert (Hrun : cancelOrder 5 6 "o1" Sample.store
                 = (Resolved true, snd (cancelOrder 5 6 "o1" Sample.store)))
    by reflexivity.
  split; [exact Hdoc|]. split; [exact Hrun|].
  destruct (cancelOrder_frame 5 6 "o1" Sample.store _ (Sample.placed 0) Hdoc Hrun)
    as (order' & Hget & Hstatus & _).
  now exists order'.
Defined.

(** X8: a cancellation repeated on the store that a cancellation resolving
    to true has left, with no other write in between, resolves to false and
    writes nothing, whatever the time. *)
Theorem cancelOrder_once (now now' : Z) (orderId : string) (db db' : Firestore) :
  cancelOrder now now' orderId db = (Resolved true, db') ->
  forall later later', cancelOrder later later' orderId db' = (Resolved false, db').
Proof.
  intros Hrun later later'.
  destruct (orders db !! orderId) as [order|] eqn:Hdoc.
  - rewrite (cancelOrder_existing _ _ _ _ _ Hdoc) in Hrun.
    destruct (Js.gt _ 24 || negb _); [discriminate|].
    injection Hrun as <-.
    erewrite cancelOrder_existing by (simpl; apply lookup_insert_eq).
    simpl. now rewrite orb_true_r.
  - rewrite (cancelOrder_missing _ _ _ _ Hdoc) in Hrun. discriminate Hrun.
Qed.

Lemma cancelOrder_once_witness :
  cancelOrder 5 6 "o1" Sample.store
  = (Resolved true, snd (cancelOrder 5 6 "o1" Sample.store))
  /\ cancelOrder 7 8 "o1" (snd (cancelOrder 5 6 "o1" Sample.store))
     = (Resolved false, snd (cancelOrder 5 6 "o1" Sample.store)).
Proof.
  assert (Hrun : cancelOrder 5 6 "o1" Sample.store
                 = (Resolved true, snd (cancelOrder 5 6 "o1" Sample.store)))
    by reflexivity.
  split; [exact Hrun|].
  exact (cancelOrder_once 5 6 "o1" Sample.store _ Hrun 7%Z 8%Z).
Defined.

(** X9: status updates are not checked against the current status: any stored
    order, a Delivered or Cancelled one included, can be set back to Pending
    by a status update that passes a comment (or passes none, when the SDK
    ignores undefined values), and it can then be cancelled as long as it was
    created at most 24 hours before. *)
Theorem reopened_order_cancels (ignoreUndefinedProperties : bool) (at_ now now' : Z)
    (orderId : string) (comment : option string) (db : Firestore) (order : Order) :
  orders db !! orderId = Some order ->
  (comment = None -> ignoreUndefinedProperties = true) ->
  (now - order_createdAt order <= Spec.window_ms)%Z ->
  exists db1 db2 order2,
    updateOrderStatus ignoreUndefinedProperties at_ orderId Pending comment db
    = (Resolved tt, db1)
    /\ cancelOrder now now' orderId db1 = (Resolved true, db2)
    /\ orders db2 !! orderId = Some order2
    /\ order_status order2 = Cancelled.
Proof.
  intros Hdoc Hsdk Hage.
  assert (Hreopened : exists db1 order1,
            updateOrderStatus ignoreUndefinedProperties at_ orderId Pending comment db
            = (Resolved tt, db1)
            /\ orders db1 !! orderId = Some order1
            /\ order_status order1 = Pending
            /\ order_createdAt order1 = order_createdAt order).
  { destruct comment as [c|].
    - rewrite (updateOrderStatus_existing _ _ _ _ _ _ _ Hdoc).
      eexists _, _. split; [reflexivity|]. simpl.
      split; [apply lookup_insert_eq|]. now split.
    - rewrite (updateOrderStatus_uncommented _ _ _ _ _ _ Hdoc), (Hsdk eq_refl).
      eexists _, _. split; [reflexivity|]. simpl.
      split; [apply lookup_insert_eq|]. now split. }
  destruct Hreopened as (db1 & order1 & Hrun & Hdoc1 & Hstatus & Hcreated).
  exists db1. rewrite (cancelOrder_existing _ _ _ _ _ Hdoc1), Hstatus, Hcreated.
  apply over_24_hours in Hage. rewrite Hage. simpl.
  eexists _, _. split; [exact Hrun|]. split; [reflexivity|]. simpl.
  split; [apply lookup_insert_eq|reflexivity].
Qed.

Lemma reopened_order_cancels_witness :
  let delivered := set_status Delivered (Sample.placed 0) in
  let db := {| products := ∅; orders := {[ "o1" := delivered ]} |} in
  orders db !! "o1" = Some delivered
  /\ (Some "sent back" = None -> false = true)
  /\ (10 - order_createdAt delivered <= Spec.window_ms)%Z
  /\ exists db1 db2 order2,
       updateOrderStatus false 9 "o1" Pending (Some "sent back") db = (Resolved tt, db1)
       /\ cancelOrder 10 11 "o1" db1 = (Resolved true, db2)
       /\ orders db2 !! "o1" = Some order2
       /\ order_status order2 = Cancelled.
Proof.
  cbv zeta.
  assert (Hdoc : orders {| products := ∅;
                           orders := {[ "o1" := set_status Delivered (Sample.placed 0) ]} |}
                   !! "o1" = Some (set_status Delivered (Sample.placed 0)))
    by reflexivity.
  assert (Hsdk : Some "sent back" = None -> false = true) by discriminate.
  assert (Hage : (10 - order_createdAt (set_status Delivered (Sample.placed 0))
                  <= Spec.window_ms)%Z) by (vm_compute; discriminate).
  split; [exact Hdoc|]. split; [exact Hsdk|]. split; [exact Hage|].
  exact (reopened_order_cancels false 9 10 11 "o1" (Some "sent back") _ _ Hdoc Hsdk Hage).
Defined.

Lemma push_tracked (first entry : OrderStatusUpdate) (status : OrderStatus)
    (comment : option string) (o : Order) :
  Props.tracked first o ->
  update_status entry = status_name status ->
  Props.tracked first
    (set_statusHistory (default [] (order_statusHistory o) ++ [entry])
       (set_status status o))
  /\ Props.tracked first
       (set_statusHistory (default [] (order_statusHistory o) ++ [entry])
          (set_adminComment comment (set_status status o))).
Proof.
  intros (h & Hh & Hfirst & _) Hentry.
  split; exists (default [] (order_statusHistory o) ++ [entry]);
    rewrite Hh; simpl; (split; [reflexivity|]); (split;
      [now apply lookup_app_l_Some|now rewrite last_snoc, <- Hentry]).
Qed.

Lemma call_keeps (ignoreUndefinedProperties : bool) (orderId : string)
    (c : OrderCall) (db : Firestore) (first : OrderStatusUpdate) (o0 : Order) :
  (exists o, orders db !! orderId = Some o
             /\ Props.tracked first o /\ Props.same_purchase o0 o) ->
  exists o, orders (call ignoreUndefinedProperties orderId c db) !! orderId = Some o
            /\ Props.tracked first o /\ Props.same_purchase o0 o.
Proof.
  intros (o & Hdoc & Ho & Hsame).
  destruct c as [now status [comment|]|now now']; simpl.
  - rewrite (updateOrderStatus_existing _ _ _ _ _ _ _ Hdoc). simpl.
    eexists. split; [apply lookup_insert_eq|]. split.
    + now apply (push_tracked first _ status (Some comment) o).
    + exact Hsame.
  - rewrite (updateOrderStatus_uncommented _ _ _ _ _ _ Hdoc).
    destruct ignoreUndefinedProperties; simpl.
    + eexists. split; [apply lookup_insert_eq|]. split.
      * now apply (push_tracked first _ status None o).
      * exact Hsame.
    + now exists o.
  - rewrite (cancelOrder_existing _ _ _ _ _ Hdoc).
    destruct (Js.gt _ 24 || negb _); simpl.
    + now exists o.
    + eexists. split; [apply lookup_insert_eq|]. split.
      * now apply (push_tracked first _ Cancelled None o).
      * exact Hsame.
Qed.

Lemma calls_keep (ignoreUndefinedProperties : bool) (orderId : string)
    (cs : list OrderCall) (db : Firestore) (first : OrderStatusUpdate) (o0 : Order) :
  (exists o, orders db !! orderId = Some o
             /\ Props.tracked first o /\ Props.same_purchase o0 o) ->
  exists o, orders (calls ignoreUndefinedProperties orderId cs db) !! orderId = Some o
            /\ Props.tracked first o /\ Props.same_purchase o0 o.
Proof.
  revert db. induction cs as [|c cs IH]; intros db Hdb; simpl; [exact Hdb|].
  apply IH. now apply call_keeps.
Qed.

(** X10: an order placed with an email and a phone is stored, and from then
    on, through every sequence of status updates and cancellations of it,
    accepted or rejected, the order stays stored, its history still starts
    with the entry "Pending" written when it was placed, its status is the
    status of the last history entry, and it is for the same purchase: user,
    items, amounts, creation time, shipping address, payment method and
    contact are those it was placed with. *)
Theorem order_lifecycle (ignoreUndefinedProperties : bool) (now now' : Z)
    (newId userId : string)
    (items : list CartItem) (total : Q) (shippingDetails : Address)
    (paymentMethod : PaymentMethod) (deliveryFee : option Q)
    (customerEmail customerPhone : string)
    (cs : list OrderCall) (db : Firestore) :
  exists (placed : Order) (db0 : Firestore) (order : Order),
    createOrder ignoreUndefinedProperties now now' newId userId items total
      shippingDetails paymentMethod deliveryFee (Some customerEmail) (Some customerPhone)
      db = (Resolved (newId, placed), db0)
    /\ order_status placed = Pending
    /\ order_userId placed = userId
    /\ order_items placed = items
    /\ order_totalAmount placed = total
    /\ order_createdAt placed = now'
    /\ orders (calls ignoreUndefinedProperties newId cs db0) !! newId = Some order
    /\ Props.tracked {| update_status := "Pending";
                        update_comment := Some "Order placed successfully";
                        update_timestamp := now |} order
    /\ Props.same_purchase placed order.
Proof.
  eexists _, _.
  assert (Hkept : forall placed db0,
            createOrder ignoreUndefinedProperties now now' newId userId items total
              shippingDetails paymentMethod deliveryFee (Some customerEmail)
              (Some customerPhone) db = (Resolved (newId, placed), db0) ->
            exists order,
              orders (calls ignoreUndefinedProperties newId cs db0) !! newId = Some order
              /\ Props.tracked {| update_status := "Pending";
                                  update_comment := Some "Order placed successfully";
                                  update_timestamp := now |} order
              /\ Props.same_purchase placed order).
  { intros placed db0 Hrun. apply calls_keep.
    unfold createOrder, bind, addDoc, ret in Hrun. simpl in Hrun.
    injection Hrun as <- <-. simpl.
    eexists. split; [apply lookup_insert_eq|]. split.
    - eexists. simpl. repeat split.
    - repeat split. }
  destruct (Hkept _ _ eq_refl) as (order & Hget & Htracked & Hsame).
  exists order. repeat (split; [reflexivity|]).
  split; [exact Hget|]. split; [exact Htracked|exact Hsame].
Qed.

End OrderLifecycle.

(** ** The order listings *)

Section OrderListing.

Import Firebase Service.

(** Whether [getOrders(userId)] asks for the orders of one user: a missing
    and an empty [userId] ask for all. *)
Lemma getOrders_run (userId : option string) (db : Firestore) :
  getOrders userId db =
    (Resolved
       (Arr.sort (fun a b => (order_createdAt (snd b) - order_createdAt (snd a))%Z)
          (List.filter
             (fun doc =>
                match userId with
                | Some uid =>
                    if bool_decide (uid = "") then true
                    else bool_decide (order_userId (snd doc) = uid)
                | None => true
                end)
             (map_to_list (orders db)))),
     db).
Proof.
  unfold getOrders, bind, getDocs, ret, Arr.truthy_str.
  destruct userId as [uid|]; [|reflexivity].
  now case_bool_decide.
Qed.

Lemma listing_sorted (userId : option string) (db : Firestore) :
  exists listed,
    getOrders userId db = (Resolved listed, db)
    /\ forall i j a b,
         (i < j)%nat -> listed !! i = Some a -> listed !! j = Some b ->
         (order_createdAt (snd b) <= order_createdAt (snd a))%Z.
Proof.
  rewrite getOrders_run. eexists. split; [reflexivity|].
  intros i j a b.
  apply (proj2 (sort_descending (fun doc : string * Order => order_createdAt (snd doc)) _)).
Qed.

Lemma listing_exact (userId : option string) (db : Firestore) :
  exists listed,
    getOrders userId db = (Resolved listed, db)
    /\ NoDup (List.map fst listed)
    /\ forall id order,
         (id, order) ∈ listed
         <-> orders db !! id = Some order
             /\ forall uid, userId = Some uid -> uid <> "" -> order_userId order = uid.
Proof.
  rewrite getOrders_run. eexists. split; [reflexivity|].
  set (keep := fun doc : string * Order =>
                 match userId with
                 | Some uid =>
                     if bool_decide (uid = "") then true
                     else bool_decide (order_userId (snd doc) = uid)
                 | None => true
                 end).
  pose proof (proj1 (sort_descending (fun doc : string * Order => order_createdAt (snd doc))
                       (List.filter keep (map_to_list (orders db))))) as Hperm.
  split.
  - rewrite Hperm.
    assert (Hnd : NoDup (List.map fst (map_to_list (orders db)))).
    { replace (List.map fst (map_to_list (orders db)))
        with ((map_to_list (orders db)).*1).
      - apply NoDup_fst_map_to_list.
      - generalize (map_to_list (orders db)). intros l.
        induction l as [|x l IH]; [reflexivity|].
        change ((x :: l).*1) with (x.1 :: l.*1). simpl. now f_equal. }
    revert Hnd. generalize (map_to_list (orders db)). intros l.
    induction l as [|x l IH]; simpl; intros Hnd; [exact Hnd|].
    apply NoDup_cons in Hnd as [Hx Hl].
    destruct (keep x); simpl; [|now apply IH].
    apply NoDup_cons. split; [|now apply IH].
    intros Hin. apply Hx.
    apply list_elem_of_In, in_map_iff in Hin as (y & Hy & Hiny).
    apply filter_In in Hiny as [Hiny _].
    apply list_elem_of_In, in_map_iff. now exists y.
  - intros id order. rewrite Hperm.
    rewrite list_elem_of_In, filter_In, <- list_elem_of_In, elem_of_map_to_list.
    unfold keep. simpl. split.
    + intros [Hdoc Hkeep]. split; [exact Hdoc|].
      intros uid -> Hne. case_bool_decide; [contradiction|].
      now apply bool_decide_eq_true in Hkeep.
    + intros [Hdoc Huser]. split; [exact Hdoc|].
      destruct userId as [uid|]; [|reflexivity].
      case_bool_decide as Hempty; [reflexivity|].
      apply bool_decide_eq_true. now apply Huser.
Qed.

(** X11: getOrders lists the stored orders newest first and writes nothing:
    an order never comes before one created later. *)
Theorem getOrders_newest_first (userId : option string) (db : Firestore) :
  exists listed,
    getOrders userId db = (Resolved listed, db)
    /\ forall i j a b,
         (i < j)%nat -> listed !! i = Some a -> listed !! j = Some b ->
         (order_createdAt (snd b) <= order_createdAt (snd a))%Z.
Proof. apply listing_sorted. Qed.

(** X12: getOrders for a user lists exactly the stored orders of that user,
    each once; without a user id, and with the empty one, it lists every
    stored order. *)
Theorem getOrders_exact (userId : option string) (db : Firestore) :
  exists listed,
    getOrders userId db = (Resolved listed, db)
    /\ NoDup (List.map fst listed)
    /\ forall id order,
         (id, order) ∈ listed
         <-> orders db !! id = Some order
             /\ forall uid, userId = Some uid -> uid <> "" -> order_userId order = uid.
Proof. apply listing_exact. Qed.

(** X13: an order just placed with an email and a phone heads the customer's
    order list when every order stored before is older. *)
Theorem createOrder_listed_first (ignoreUndefinedProperties : bool) (now now' : Z)
    (newId userId : string)
    (items : list CartItem) (total : Q) (shippingDetails : Address)
    (paymentMethod : PaymentMethod) (deliveryFee : option Q)
    (customerEmail customerPhone : string) (db : Firestore) :
  userId <> "" ->
  (forall id order, orders db !! id = Some order -> (order_createdAt order < now')%Z) ->
  exists placed db' rest,
    createOrder ignoreUndefinedProperties now now' newId userId items total
      shippingDetails paymentMethod deliveryFee (Some customerEmail) (Some customerPhone)
      db = (Resolved (newId, placed), db')
    /\ getOrders (Some userId) db' = (Resolved ((newId, placed) :: rest), db').
Proof.
  intros Huser Holder.
  assert (Hcreate : exists placed db',
    createOrder ignoreUndefinedProperties now now' newId userId items total
      shippingDetails paymentMethod deliveryFee (Some customerEmail) (Some customerPhone)
      db = (Resolved (newId, placed), db')
    /\ orders db' = <[newId := placed]> (orders db)
    /\ order_userId placed = userId /\ order_createdAt placed = now').
  { eexists _, _. unfold createOrder, bind, addDoc, ret. simpl.
    split; [reflexivity|]. simpl. repeat split. }
  destruct Hcreate as (placed & db' & Hrun & Hdb' & Hu & Hc).
  destruct (listing_sorted (Some userId) db') as (listed & Hlist & Hsorted).
  destruct (listing_exact (Some userId) db') as (listed' & Hlist' & Hnd & Hmem).
  rewrite Hlist in Hlist'. injection Hlist' as <-.
  assert (Hin : (newId, placed) ∈ listed).
  { apply Hmem. rewrite Hdb', lookup_insert_eq. split; [reflexivity|].
    intros uid Huid _. injection Huid as <-. exact Hu. }
  destruct listed as [|[id0 o0] rest]; [now apply elem_of_nil in Hin|].
  assert (Hhead : (id0, o0) = (newId, placed)).
  { apply list_elem_of_lookup in Hin as [j Hj].
    destruct j as [|j]; [simpl in Hj; congruence|]. exfalso.
    assert (Hle : (order_createdAt placed <= order_createdAt o0)%Z)
      by (apply (Hsorted 0%nat (S j) (id0, o0) (newId, placed)); [lia|reflexivity|exact Hj]).
    assert (H0 : (id0, o0) ∈ (id0, o0) :: rest) by apply list_elem_of_here.
    apply Hmem in H0 as [Hdoc0 _]. rewrite Hdb' in Hdoc0.
    destruct (decide (id0 = newId)) as [->|Hne].
    - simpl in Hnd. apply NoDup_cons in Hnd as [Hfirst _]. apply Hfirst.
      apply list_elem_of_In, in_map_iff. exists (newId, placed). split; [reflexivity|].
      apply list_elem_of_In. eapply list_elem_of_lookup_2. exact Hj.
    - rewrite lookup_insert_ne in Hdoc0 by congruence.
      specialize (Holder id0 o0 Hdoc0). lia. }
  exists placed, db', rest. split; [exact Hrun|]. now rewrite Hlist, Hhead.
Qed.

Lemma createOrder_listed_first_witness :
  "shopper" <> ""
  /\ (forall id order, orders Sample.store !! id = Some order ->
                       (order_createdAt order < 50)%Z)
  /\ exists placed db' rest,
       createOrder false 50 50 "o2" "shopper" Sample.scenario 3000 Sample.home COD
         (Some 200) (Some "shopper@example.com") (Some "0771234567") Sample.store
       = (Resolved ("o2", placed), db')
       /\ getOrders (Some "shopper") db' = (Resolved (("o2", placed) :: rest), db').
Proof.
  assert (Huser : "shopper" <> "") by discriminate.
  assert (Holder : forall id order, orders Sample.store !! id = Some order ->
                                    (order_createdAt order < 50)%Z).
  { intros id order Hdoc. simpl in Hdoc.
    apply lookup_singleton_Some in Hdoc as [_ <-]. simpl. lia. }
  split; [exact Huser|]. split; [exact Holder|].
  exact (createOrder_listed_first false 50 50 "o2" "shopper" Sample.scenario 3000
           Sample.home COD (Some 200) "shopper@example.com" "0771234567" Sample.store
           Huser Holder).
Defined.

End OrderListing.

(** ** Reviews, continued *)

Section ReviewLists.

Import Firebase Service.

Lemma addReview_run (newId : string) (now : Z) (productId : string)
    (review : ReviewInput) (db : Firestore) (product : Product) :
  products db !! productId = Some product ->
  let rs := default [] (product_reviews product)
              ++ [ {| review_id := newId;
                      review_userId := input_userId review;
                      review_userName := input_userName review;
                      review_rating := input_rating review;
                      review_comment := input_comment review;
                      review_date := now |} ] in
  let rating := Js.reduce (fun acc r => acc + review_rating r) 0 rs / len rs in
  addReview newId now productId review db =
    (Resolved (set_rating rating (set_reviews rs (set_id productId product))),
     {| products := <[productId := set_rating rating (set_reviews rs product)]> (products db);
        orders := orders db |}).
Proof.
  intros Hdoc. unfold addReview, bind, getDoc, updateDoc, ret. simpl.
  now repeat (rewrite Hdoc; simpl).
Qed.

Lemma deleteReview_run (productId reviewId : string) (db : Firestore)
    (product : Product) :
  products db !! productId = Some product ->
  let rs := List.filter (fun r => negb (bool_decide (review_id r = reviewId)))
                        (default [] (product_reviews product)) in
  let rating :=
    if Js.gt (len rs) 0
    then Js.reduce (fun acc r => acc + review_rating r) 0 rs / len rs
    else 0 in
  deleteReview productId reviewId db =
    (Resolved (set_rating rating (set_reviews rs (set_id productId product))),
     {| products := <[productId := set_rating rating (set_reviews rs product)]> (products db);
        orders := orders db |}).
Proof.
  intros Hdoc. unfold deleteReview, bind, getDoc, updateDoc, ret. simpl.
  now repeat (rewrite Hdoc; simpl).
Qed.

(** X14: addReview on a stored product appends exactly one review, the one
    submitted with the new id and the current time, after the reviews there
    were; it changes nothing else of the product but the rating, no other
    product and no order. *)
Theorem addReview_appends (newId : string) (now : Z) (productId : string)
    (review : ReviewInput) (db : Firestore) (product : Product) :
  products db !! productId = Some product ->
  exists result stored db',
    addReview newId now productId review db = (Resolved result, db')
    /\ products db' !! productId = Some stored
    /\ product_reviews stored =
         Some (default [] (product_reviews product)
                 ++ [ {| review_id := newId;
                         review_userId := input_userId review;
                         review_userName := input_userName review;
                         review_rating := input_rating review;
                         review_comment := input_comment review;
                         review_date := now |} ])
    /\ Listing.same_listing product stored
    /\ product_reviews result = product_reviews stored
    /\ product_rating result = product_rating stored
    /\ product_id result = productId
    /\ (forall other, other <> productId -> products db' !! other = products db !! other)
    /\ orders db' = orders db.
Proof.
  intros Hdoc. rewrite (addReview_run _ _ _ _ _ _ Hdoc). cbv zeta.
  eexists _, _, _. split; [reflexivity|]. simpl.
  split; [apply lookup_insert_eq|]. simpl.
  split; [reflexivity|]. split; [repeat split|].
  repeat (split; [reflexivity|]). split; [|reflexivity].
  intros other Hother. now apply lookup_insert_ne.
Qed.

Lemma addReview_appends_witness :
  products Sample.store !! "laptop" = Some Sample.laptop
  /\ exists result stored db',
       addReview "r1" 3 "laptop" (Sample.opinion 4) Sample.store = (Resolved result, db')
       /\ products db' !! "laptop" = Some stored
       /\ length (default [] (product_reviews stored)) = 1%nat.
Proof.
  assert (Hdoc : products Sample.store !! "laptop" = Some Sample.laptop) by reflexivity.
  split; [exact Hdoc|].
  destruct (addReview_appends "r1" 3 "laptop" (Sample.opinion 4) Sample.store
              Sample.laptop Hdoc)
    as (result & stored & db' & Hrun & Hget & Hrs & _).
  exists result, stored, db'. split; [exact Hrun|]. split; [exact Hget|].
  now rewrite Hrs.
Defined.

Lemma filter_sublist {A} (keep : A -> bool) (l : list A) :
  List.filter keep l `sublist_of` l.
Proof.
  induction l as [|x l IH]; simpl; [constructor|].
  destruct (keep x); now constructor.
Qed.

Lemma filter_all {A} (keep : A -> bool) (l : list A) :
  (forall x, x ∈ l -> keep x = true) -> List.filter keep l = l.
Proof.
  induction l as [|x l IH]; simpl; intros Hall; [reflexivity|].
  rewrite (Hall x) by apply list_elem_of_here.
  rewrite IH; [reflexivity|].
  intros y Hy. apply Hall. now apply list_elem_of_further.
Qed.

(** X15: deleteReview on a stored product removes every review with the given
    id and no other, keeps the remaining reviews in their order, and leaves
    the list as it was when no review has that id; it changes nothing else of
    the product but the rating. *)
Theorem deleteReview_exact (productId reviewId : string) (db : Firestore)
    (product : Product) :
  products db !! productId = Some product ->
  exists result stored db' rs,
    deleteReview productId reviewId db = (Resolved result, db')
    /\ products db' !! productId = Some stored
    /\ product_reviews stored = Some rs
    /\ (forall r, r ∈ rs <-> r ∈ default [] (product_reviews product)
                             /\ review_id r <> reviewId)
    /\ rs `sublist_of` default [] (product_reviews product)
    /\ ((forall r, r ∈ default [] (product_reviews product) -> review_id r <> reviewId)
        -> rs = default [] (product_reviews product))
    /\ Listing.same_listing product stored
    /\ (forall other, other <> productId -> products db' !! other = products db !! other)
    /\ orders db' = orders db.
Proof.
  intros Hdoc. rewrite (deleteReview_run _ _ _ _ Hdoc). cbv zeta.
  eexists _, _, _, _. split; [reflexivity|]. simpl.
  split; [apply lookup_insert_eq|]. simpl.
  split; [reflexivity|]. split; [|split; [|split; [|split; [|split]]]].
  - intros r. rewrite !list_elem_of_In, filter_In, negb_true_iff, bool_decide_eq_false.
    reflexivity.
  - apply filter_sublist.
  - intros Hnone. apply filter_all. intros r Hr.
    apply negb_true_iff, bool_decide_eq_false. now apply Hnone.
  - repeat split.
  - intros other Hother. now apply lookup_insert_ne.
  - reflexivity.
Qed.

Lemma deleteReview_exact_witness :
  products (Sample.reviewed [Sample.review "r1" 4; Sample.review "r2" 2]) !! "laptop"
  = Some (set_rating 5 (set_reviews [Sample.review "r1" 4; Sample.review "r2" 2]
                          Sample.laptop))
  /\ exists result stored db' rs,
       deleteReview "laptop" "r1"
         (Sample.reviewed [Sample.review "r1" 4; Sample.review "r2" 2])
       = (Resolved result, db')
       /\ products db' !! "laptop" = Some stored
       /\ product_reviews stored = Some rs
       /\ rs `sublist_of` [Sample.review "r1" 4; Sample.review "r2" 2].
Proof.
  split; [reflexivity|].
  destruct (deleteReview_exact "laptop" "r1"
              (Sample.reviewed [Sample.review "r1" 4; Sample.review "r2" 2])
              _ eq_refl)
    as (result & stored & db' & rs & Hrun & Hget & Hrs & _ & Hsub & _).
  now exists result, stored, db', rs.
Defined.

(** X16: deleting a review that was just added under an id no other review
    of the product has gives back the reviews there were before, and the
    stored rating is their mean. *)
Theorem addReview_deleteReview (newId : string) (now : Z) (productId : string)
    (review : ReviewInput) (db : Firestore) (product : Product) :
  products db !! productId = Some product ->
  (forall r, r ∈ default [] (product_reviews product) -> review_id r <> newId) ->
  exists result1 db1 result2 db2 stored,
    addReview newId now productId review db = (Resolved result1, db1)
    /\ deleteReview productId newId db1 = (Resolved result2, db2)
    /\ products db2 !! productId = Some stored
    /\ product_reviews stored = Some (default [] (product_reviews product))
    /\ product_rating stored == Spec.mean_rating (default [] (product_reviews product))
    /\ Listing.same_listing product stored
    /\ (forall other, other <> productId -> products db2 !! other = products db !! other)
    /\ orders db2 = orders db.
Proof.
  intros Hdoc Hfresh.
  rewrite (addReview_run _ _ _ _ _ _ Hdoc). cbv zeta.
  match goal with
  | |- context [(Resolved ?r, ?d)] => set (result1 := r); set (db1 := d)
  end.
  assert (Hdoc1 : exists p1,
             products db1 !! productId = Some p1
             /\ Listing.same_listing product p1
             /\ default [] (product_reviews p1)
                = default [] (product_reviews product)
                    ++ [ {| review_id := newId;
                            review_userId := input_userId review;
                            review_userName := input_userName review;
                            review_rating := input_rating review;
                            review_comment := input_comment review;
                            review_date := now |} ]).
  { eexists. split; [subst db1; simpl; apply lookup_insert_eq|].
    split; [repeat split|reflexivity]. }
  destruct Hdoc1 as (p1 & Hdoc1 & Hsame1 & Hrs1).
  destruct (deleteReview_stores productId newId db1 p1 Hdoc1) as
      (result2 & stored & db2 & rs & Hrun2 & Hget2 & Hrs2 & Hfilter & Hmean & _).
  exists result1, db1, result2, db2, stored.
  split; [reflexivity|]. split; [exact Hrun2|]. split; [exact Hget2|].
  assert (Hback : rs = default [] (product_reviews product)).
  { rewrite Hfilter, Hrs1, List.filter_app. simpl.
    rewrite bool_decide_eq_true_2 by reflexivity. simpl. rewrite app_nil_r.
    apply filter_all. intros r Hr.
    apply negb_true_iff, bool_decide_eq_false. now apply Hfresh. }
  rewrite Hrs2, <- Hback. split; [reflexivity|]. split; [exact Hmean|].
  rewrite (deleteReview_run _ _ _ _ Hdoc1) in Hrun2.
  cbv zeta in Hrun2. injection Hrun2 as _ <-. simpl in Hget2 |- *.
  rewrite lookup_insert_eq in Hget2. injection Hget2 as <-.
  split; [exact Hsame1|]. split; [|reflexivity].
  intros other Hother. subst db1. simpl.
  now rewrite !lookup_insert_ne by congruence.
Qed.

Lemma addReview_deleteReview_witness :
  products Sample.store !! "laptop" = Some Sample.laptop
  /\ (forall r, r ∈ default [] (product_reviews Sample.laptop) -> review_id r <> "r9")
  /\ exists result1 db1 result2 db2 stored,
       addReview "r9" 3 "laptop" (Sample.opinion 4) Sample.store = (Resolved result1, db1)
       /\ deleteReview "laptop" "r9" db1 = (Resolved result2, db2)
       /\ products db2 !! "laptop" = Some stored
       /\ product_reviews stored = Some (default [] (product_reviews Sample.laptop)).
Proof.
  assert (Hdoc : products Sample.store !! "laptop" = Some Sample.laptop) by reflexivity.
  assert (Hfresh : forall r, r ∈ default [] (product_reviews Sample.laptop) ->
                             review_id r <> "r9").
  { intros r Hr. simpl in Hr. now apply elem_of_nil in Hr. }
  split; [exact Hdoc|]. split; [exact Hfresh|].
  destruct (addReview_deleteReview "r9" 3 "laptop" (Sample.opinion 4) Sample.store
              Sample.laptop Hdoc Hfresh)
    as (r1 & db1 & r2 & db2 & stored & H1 & H2 & H3 & H4 & _).
  now exists r1, db1, r2, db2, stored.
Defined.

End ReviewLists.

(** ** The range of the rating, and new products *)

Section RatingRange.

Import Firebase Service.

Lemma sum_over_bounds {A} (f : A -> Q) (lo hi : Q) (l : list A) :
  (forall x, x ∈ l -> Listing.within lo hi (f x)) ->
  lo * len l <= Spec.sum_over f l /\ Spec.sum_over f l <= hi * len l.
Proof.
  unfold len, Listing.within.
  induction l as [|x l IH]; intros Hall.
  - change (inject_Z (Z.of_nat (length (@nil A)))) with 0. simpl. split; lra.
  - destruct (Hall x) as [Hlo Hhi]; [apply list_elem_of_here|].
    destruct IH as [IHlo IHhi].
    { intros y Hy. apply Hall. now apply list_elem_of_further. }
    simpl length. simpl Spec.sum_over.
    rewrite Nat2Z.inj_succ, <- Z.add_1_l, inject_Z_plus.
    change (inject_Z 1) with 1. split; lra.
Qed.

(** The mean of ratings between [lo] and [hi] lies between them. *)
Lemma mean_within (lo hi : Q) (rs : list Review) :
  rs <> [] ->
  (forall r, r ∈ rs -> Listing.within lo hi (review_rating r)) ->
  Listing.within lo hi (Spec.mean_rating rs).
Proof.
  intros Hne Hall.
  destruct (sum_over_bounds review_rating lo hi rs Hall) as [Hlo Hhi].
  assert (Hpos : 0 < len rs).
  { apply lt_true. apply (proj2 (len_positive rs) Hne). }
  unfold Spec.mean_rating. destruct rs as [|r rs]; [contradiction|].
  fold (len (r :: rs)). split.
  - apply Qle_shift_div_l; assumption.
  - apply Qle_shift_div_r; assumption.
Qed.

(** X17: when the ratings of the stored reviews and the rating submitted lie
    between two bounds (1 and 5 stars, say), so does the rating stored by
    addReview; the rating stored by deleteReview lies between them too,
    unless no review is left, when it is 0. *)
Theorem rating_within (lo hi : Q) (db : Firestore) (productId : string)
    (product : Product) :
  products db !! productId = Some product ->
  (forall r, r ∈ default [] (product_reviews product) ->
             Listing.within lo hi (review_rating r)) ->
  (forall newId now review,
      Listing.within lo hi (input_rating review) ->
      exists stored,
        products (snd (addReview newId now productId review db)) !! productId
        = Some stored
        /\ Listing.within lo hi (product_rating stored))
  /\ (forall reviewId,
        exists stored,
          products (snd (deleteReview productId reviewId db)) !! productId = Some stored
          /\ (Listing.within lo hi (product_rating stored)
              \/ product_reviews stored = Some [] /\ product_rating stored == 0)).
Proof.
  intros Hdoc Hall. split.
  - intros newId now review Hnew.
    destruct (addReview_stores newId now productId review db product Hdoc)
      as (result & stored & db' & rs & Hrun & Hget & Hrs & Heq & Hmean & _).
    exists stored. rewrite Hrun. split; [exact Hget|].
    unfold Listing.within. rewrite Hmean.
    apply mean_within.
    + rewrite Heq. intros Habs. apply app_eq_nil in Habs as [_ Habs]. discriminate.
    + intros r Hr. rewrite Heq in Hr. apply elem_of_app in Hr as [Hr|Hr].
      * now apply Hall.
      * apply list_elem_of_singleton in Hr. subst r. exact Hnew.
  - intros reviewId.
    destruct (deleteReview_stores productId reviewId db product Hdoc)
      as (result & stored & db' & rs & Hrun & Hget & Hrs & Heq & Hmean & _).
    exists stored. rewrite Hrun. split; [exact Hget|].
    destruct rs as [|r rs'] eqn:Hshape.
    + right. split; [exact Hrs|exact Hmean].
    + left. unfold Listing.within. rewrite Hmean.
      apply mean_within; [discriminate|].
      intros x Hx. rewrite Heq in Hx.
      apply list_elem_of_In, filter_In in Hx as [Hx _].
      apply Hall. now apply list_elem_of_In.
Qed.

Lemma rating_within_witness :
  let db := Sample.reviewed [Sample.review "r1" 4; Sample.review "r2" 2] in
  let product := set_rating 5 (set_reviews [Sample.review "r1" 4; Sample.review "r2" 2]
                                 Sample.laptop) in
  products db !! "laptop" = Some product
  /\ (forall r, r ∈ default [] (product_reviews product) ->
                Listing.within 1 5 (review_rating r))
  /\ Listing.within 1 5 (input_rating (Sample.opinion 5))
  /\ exists stored,
       products (snd (addReview "r3" 9 "laptop" (Sample.opinion 5) db)) !! "laptop"
       = Some stored
       /\ Listing.within 1 5 (product_rating stored).
Proof.
  cbv zeta.
  assert (Hdoc : products (Sample.reviewed [Sample.review "r1" 4; Sample.review "r2" 2])
                   !! "laptop"
                 = Some (set_rating 5
                           (set_reviews [Sample.review "r1" 4; Sample.review "r2" 2]
                              Sample.laptop))) by reflexivity.
  assert (Hall : forall r,
             r ∈ default [] (product_reviews
                               (set_rating 5
                                  (set_reviews [Sample.review "r1" 4; Sample.review "r2" 2]
                                     Sample.laptop))) ->
             Listing.within 1 5 (review_rating r)).
  { intros r Hr. simpl in Hr.
    apply elem_of_cons in Hr as [->|Hr]; [split; simpl; lra|].
    apply list_elem_of_singleton in Hr as ->. split; simpl; lra. }
  assert (Hnew : Listing.within 1 5 (input_rating (Sample.opinion 5)))
    by (split; simpl; lra).
  split; [exact Hdoc|]. split; [exact Hall|]. split; [exact Hnew|].
  exact (proj1 (rating_within 1 5 _ "laptop" _ Hdoc Hall) "r3" 9%Z (Sample.opinion 5) Hnew).
Defined.

(** X18: whatever the form holds, addProduct stores a product without
    reviews, rated 0, without a delivery fee and without a short description,
    whose offer price is absent or not zero: the two readings of the unit
    price agree on it, it ships free, and its first review sets its rating. *)
Theorem addProduct_fresh (newId : string) (form : ProductForm) (db : Firestore) :
  exists product db',
    addProduct newId form db = (Resolved product, db')
    /\ products db' !! newId = Some product
    /\ product_id product = newId
    /\ product_reviews product = Some []
    /\ product_rating product = 0
    /\ product_deliveryFee product = None
    /\ product_shortDescription product = None
    /\ (forall offer, product_offerPrice product = Some offer -> ~ offer == 0)
    /\ Spec.unit_price product = Spec.price_if_present product
    /\ Checkout.totalDeliveryFee [ {| item_product := product; quantity := 1 |} ] == 0
    /\ (forall reviewId now review,
          exists stored,
            products (snd (addReview reviewId now newId review db')) !! newId = Some stored
            /\ product_rating stored == input_rating review)
    /\ (forall other, other <> newId -> products db' !! other = products db !! other)
    /\ orders db' = orders db.
Proof.
  eexists _, _. unfold addProduct, bind, addDoc, ret. simpl.
  split; [reflexivity|]. simpl.
  split; [apply lookup_insert_eq|].
  repeat (split; [reflexivity|]).
  assert (Hoffer : forall offer,
    match form_offerPrice form with
    | Some offer0 => if Js.falsy offer0 then None else Some offer0
    | None => None
    end = Some offer -> ~ offer == 0).
  { intros offer Heq Hz. apply falsy_iff in Hz.
    destruct (form_offerPrice form) as [o|]; [|discriminate].
    destruct (Js.falsy o) eqn:Ho; [discriminate|]. injection Heq as ->. congruence. }
  split; [exact Hoffer|]. split; [|split; [|split; [|split]]].
  - unfold Spec.unit_price, Spec.price_if_present, Js.nullish. simpl.
    destruct (match form_offerPrice form with
              | Some offer0 => if Js.falsy offer0 then None else Some offer0
              | None => None
              end) as [offer|] eqn:Heq; [|reflexivity].
    destruct (Qeq_dec offer 0) as [Hz|_]; [|reflexivity].
    exfalso. exact (Hoffer offer eq_refl Hz).
  - reflexivity.
  - intros reviewId now review.
    match goal with
    | |- context [addReview _ _ _ _ ?d] => set (db' := d)
    end.
    assert (Hdoc : exists p, products db' !! newId = Some p
                             /\ product_reviews p = Some []).
    { eexists. split; [subst db'; simpl; apply lookup_insert_eq|reflexivity]. }
    destruct Hdoc as (p & Hdoc & Hnone).
    destruct (addReview_stores reviewId now newId review db' p Hdoc)
      as (result & stored & db'' & rs & Hrun & Hget & Hrs & Heq & Hmean & _).
    exists stored. rewrite Hrun. split; [exact Hget|].
    rewrite Hmean, Heq, Hnone. simpl. field.
  - intros other Hother. now apply lookup_insert_ne.
  - reflexivity.
Qed.

End RatingRange.

(** ** Placing an order from the cart *)

Section PlacingOrders.

Import Firebase Service.

(** X19: a click on the pay button by a signed-in user with a cart that is
    not empty and a selected address of theirs writes one order and empties
    the cart: the order is Pending, holds the cart's lines, the user's id,
    the selected address and its phone, the payment method, a delivery fee
    that is the sum of the lines' fees and a total that is the sum of the
    lines' prices and fees. *)
Theorem handleOrder_places (ignoreUndefinedProperties : bool) (now now' : Z)
    (newId : string) (u : User)
    (cart : list CartItem) (selectedAddressId : string) (method : PaymentMethod)
    (db : Firestore) (address : Address) :
  cart <> [] ->
  selectedAddressId <> "" ->
  List.find (fun a => bool_decide (address_id a = selectedAddressId)) (user_addresses u)
  = Some address ->
  exists db' order,
    Shop.handleOrder ignoreUndefinedProperties now now' newId (Some u) cart
      selectedAddressId method db
    = (Resolved (Shop.Placed, []), db')
    /\ orders db' !! newId = Some order
    /\ order_status order = Pending
    /\ order_items order = cart
    /\ order_userId order = user_id u
    /\ order_shippingDetails order = address
    /\ address_id address = selectedAddressId
    /\ order_paymentMethod order = method
    /\ order_customerEmail order = Some (user_email u)
    /\ order_customerPhone order = Some (address_phone address)
    /\ order_deliveryFee order == Spec.sum_over (Spec.line Spec.unit_fee) cart
    /\ order_totalAmount order
       == Spec.sum_over (Spec.line Spec.unit_price) cart
          + Spec.sum_over (Spec.line Spec.unit_fee) cart
    /\ products db' = products db.
Proof.
  intros Hcart Hselected Hfind.
  unfold Shop.handleOrder, Arr.truthy_str.
  rewrite bool_decide_eq_false_2
    by (intros Hlen; apply length_zero_iff_nil in Hlen; contradiction).
  rewrite (bool_decide_eq_false_2 _ Hselected). simpl. rewrite Hfind.
  unfold Shop.createOrderInDb, createOrder, bind, addDoc, ret. simpl.
  eexists _, _. split; [reflexivity|]. simpl.
  split; [apply lookup_insert_eq|]. simpl.
  repeat (split; [reflexivity|]).
  apply find_some in Hfind as [_ Hid]. apply bool_decide_eq_true in Hid.
  split; [exact Hid|].
  repeat (split; [reflexivity|]).
  split; [apply totalDeliveryFee_sum|]. split; [|reflexivity].
  unfold Checkout.grandTotal. now rewrite cartTotal_sum, totalDeliveryFee_sum.
Qed.

Lemma handleOrder_places_witness :
  Sample.scenario <> []
  /\ "a1" <> ""
  /\ List.find (fun a => bool_decide (address_id a = "a1")) (user_addresses Fixture.buyer)
     = Some Sample.home
  /\ exists db' order,
       Shop.handleOrder false 5 6 "o2" (Some Fixture.buyer) Sample.scenario "a1" COD
         Sample.store
       = (Resolved (Shop.Placed, []), db')
       /\ orders db' !! "o2" = Some order
       /\ order_status order = Pending
       /\ order_items order = Sample.scenario.
Proof.
  assert (Hcart : Sample.scenario <> []) by discriminate.
  assert (Hselected : "a1" <> "") by discriminate.
  assert (Hfind : List.find (fun a => bool_decide (address_id a = "a1"))
                            (user_addresses Fixture.buyer) = Some Sample.home)
    by reflexivity.
  split; [exact Hcart|]. split; [exact Hselected|]. split; [exact Hfind|].
  destruct (handleOrder_places false 5 6 "o2" Fixture.buyer Sample.scenario "a1" COD
              Sample.store Sample.home Hcart Hselected Hfind)
    as (db' & order & Hrun & Hget & Hstatus & Hitems & _).
  now exists db', order.
Defined.

(** X20: the pay button writes nothing and keeps the cart when nobody is
    signed in, when the cart is empty, when no address is selected, or when
    the selected id is not one of the user's addresses. *)
Theorem handleOrder_guards (ignoreUndefinedProperties : bool) (now now' : Z)
    (newId : string) (user : option User)
    (cart : list CartItem) (selectedAddressId : string) (method : PaymentMethod)
    (db : Firestore) :
  match user with
  | None => True
  | Some u =>
      cart = [] \/ selectedAddressId = ""
      \/ forall a, a ∈ user_addresses u -> address_id a <> selectedAddressId
  end ->
  exists step,
    Shop.handleOrder ignoreUndefinedProperties now now' newId user cart
      selectedAddressId method db
    = (Resolved (step, cart), db)
    /\ step <> Shop.Placed
    /\ (user = None -> step = Shop.ToLogin).
Proof.
  intros Hguard. unfold Shop.handleOrder, Arr.truthy_str.
  destruct user as [u|].
  - case_bool_decide as Hlen.
    { exists Shop.Ignored. repeat split; discriminate. }
    case_bool_decide as Hsel; simpl.
    { exists Shop.AskForAddress. repeat split; discriminate. }
    destruct (List.find _ (user_addresses u)) as [address|] eqn:Hfind.
    + exfalso. destruct Hguard as [->|[Hempty|Hnone]].
      * now apply Hlen.
      * contradiction.
      * apply find_some in Hfind as [Hin Hid].
        apply bool_decide_eq_true in Hid.
        apply (Hnone address); [now apply list_elem_of_In|exact Hid].
    + exists Shop.Ignored. repeat split; discriminate.
  - exists Shop.ToLogin. repeat split; discriminate.
Qed.

Lemma handleOrder_guards_witness :
  (Sample.scenario = [] \/ "" = ""
   \/ forall a, a ∈ user_addresses Fixture.buyer -> address_id a <> "")
  /\ exists step,
       Shop.handleOrder false 5 6 "o2" (Some Fixture.buyer) Sample.scenario "" Card
         Sample.store
       = (Resolved (step, Sample.scenario), Sample.store)
       /\ step <> Shop.Placed
       /\ (Some Fixture.buyer = None -> step = Shop.ToLogin).
Proof.
  assert (Hguard : Sample.scenario = [] \/ "" = ""
                   \/ forall a, a ∈ user_addresses Fixture.buyer -> address_id a <> "")
    by (right; left; reflexivity).
  split; [exact Hguard|].
  exact (handleOrder_guards false 5 6 "o2" (Some Fixture.buyer) Sample.scenario "" Card
           Sample.store Hguard).
Defined.

End PlacingOrders.

(** ** The wish list and the address book *)

Section AccountProperties.

Import Firebase Account.

Lemma toggled_elem (productId : string) (wishlist : list string) (id : string) :
  id ∈ toggled productId wishlist
  <-> (if decide (id = productId) then productId ∉ wishlist else id ∈ wishlist).
Proof.
  unfold toggled, Arr.includes. case_bool_decide as Hliked.
  - rewrite list_elem_of_In, filter_In, <- list_elem_of_In, negb_true_iff,
      bool_decide_eq_false.
    destruct (decide (id = productId)) as [->|Hne]; tauto.
  - rewrite elem_of_app, list_elem_of_singleton.
    destruct (decide (id = productId)) as [->|Hne]; tauto.
Qed.

(** X21: toggling a product on the wish list of the signed-in user flips
    whether that product is on it and nothing else: every other product is
    on the list after exactly when it was before, the rest of the profile is
    unchanged, and the local storage holds the same profile as the page;
    with nobody signed in nothing changes. *)
Theorem toggleWishlist_flips (productId : string) (user cached : option User) :
  match user with
  | None => toggleWishlist productId (user, cached) = (user, cached)
  | Some u =>
      exists u',
        toggleWishlist productId (user, cached) = (Some u', Some u')
        /\ (productId ∈ user_wishlist u' <-> productId ∉ user_wishlist u)
        /\ (forall id, id <> productId ->
                       (id ∈ user_wishlist u' <-> id ∈ user_wishlist u))
        /\ set_wishlist (user_wishlist u) u' = u
  end.
Proof.
  destruct user as [u|]; [|reflexivity].
  eexists. split; [reflexivity|]. simpl. split; [|split].
  - rewrite toggled_elem. now destruct (decide (productId = productId)).
  - intros id Hne. rewrite toggled_elem. now destruct (decide (id = productId)).
  - now destruct u.
Qed.

Lemma filter_NoDup {A} (keep : A -> bool) (l : list A) :
  NoDup l -> NoDup (List.filter keep l).
Proof.
  induction 1 as [|x l Hx Hl IH]; simpl; [constructor|].
  destruct (keep x); [|exact IH].
  constructor; [|exact IH].
  intros Hin. apply Hx.
  apply list_elem_of_In, filter_In in Hin as [Hin _]. now apply list_elem_of_In.
Qed.

Lemma without_Permutation (x : string) (l : list string) :
  NoDup l -> x ∈ l ->
  l ≡ₚ List.filter (fun id => negb (bool_decide (id = x))) l ++ [x].
Proof.
  induction l as [|y l IH]; intros Hnd Hin; [now apply elem_of_nil in Hin|].
  apply NoDup_cons in Hnd as [Hy Hl]. simpl.
  case_bool_decide as Hyx; simpl.
  - subst y. rewrite filter_all.
    + apply Permutation_cons_append.
    + intros z Hz. apply negb_true_iff, bool_decide_eq_false. intros ->. contradiction.
  - apply elem_of_cons in Hin as [->|Hin]; [contradiction|].
    now rewrite <- (IH Hl Hin).
Qed.

(** X22: a wish list without duplicates stays without duplicates under a
    toggle; toggling the same product twice gives back the same products,
    and the very same list when the product was not on it. *)
Theorem toggled_twice (productId : string) (wishlist : list string) :
  NoDup wishlist ->
  NoDup (toggled productId wishlist)
  /\ toggled productId (toggled productId wishlist) ≡ₚ wishlist
  /\ (productId ∉ wishlist ->
      toggled productId (toggled productId wishlist) = wishlist).
Proof.
  intros Hnd.
  assert (Heither : productId ∈ wishlist \/ productId ∉ wishlist)
    by (destruct (decide (productId ∈ wishlist)); auto).
  destruct Heither as [Hin|Hout].
  - assert (Hfirst : toggled productId wishlist
                     = List.filter (fun id => negb (bool_decide (id = productId))) wishlist).
    { unfold toggled, Arr.includes. now rewrite bool_decide_eq_true_2. }
    assert (Hgone : productId ∉ toggled productId wishlist).
    { intros Habs. apply toggled_elem in Habs.
      destruct (decide (productId = productId)); contradiction. }
    assert (Hsecond : toggled productId (toggled productId wishlist)
                      = toggled productId wishlist ++ [productId]).
    { unfold toggled at 1, Arr.includes. now rewrite bool_decide_eq_false_2. }
    split; [|split].
    + rewrite Hfirst. now apply filter_NoDup.
    + rewrite Hsecond, Hfirst. symmetry. now apply without_Permutation.
    + intros Hout. contradiction.
  - assert (Hfirst : toggled productId wishlist = wishlist ++ [productId]).
    { unfold toggled, Arr.includes. now rewrite bool_decide_eq_false_2. }
    assert (Hsecond : toggled productId (toggled productId wishlist) = wishlist).
    { rewrite Hfirst. unfold toggled, Arr.includes.
      rewrite bool_decide_eq_true_2
        by (apply elem_of_app; right; apply list_elem_of_here).
      rewrite List.filter_app. simpl.
      rewrite bool_decide_eq_true_2 by reflexivity. simpl. rewrite app_nil_r.
      apply filter_all. intros z Hz.
      apply negb_true_iff, bool_decide_eq_false. intros ->. contradiction. }
    split; [|split].
    + rewrite Hfirst. apply NoDup_app. split; [exact Hnd|].
      split; [|apply NoDup_singleton].
      intros z Hz Hz'. apply list_elem_of_singleton in Hz'. subst z. contradiction.
    + now rewrite Hsecond.
    + intros _. exact Hsecond.
Qed.

Lemma toggled_twice_witness :
  NoDup ["laptop"; "phone"]
  /\ NoDup (toggled "laptop" ["laptop"; "phone"])
  /\ toggled "laptop" (toggled "laptop" ["laptop"; "phone"]) ≡ₚ ["laptop"; "phone"].
Proof.
  assert (Hnd : NoDup ["laptop"; "phone"]).
  { apply NoDup_cons. split.
    - intros Hin. apply list_elem_of_singleton in Hin. discriminate Hin.
    - apply NoDup_singleton. }
  split; [exact Hnd|].
  destruct (toggled_twice "laptop" ["laptop"; "phone"] Hnd) as (H1 & H2 & _).
  split; assumption.
Defined.

(** X23: saveAddress on a user whose document is stored appends the new
    address to the addresses the caller holds, and the returned profile, the
    local storage and the stored document all get that list; the stored
    document keeps its other properties and the other users are untouched.
    When the user's document is not stored the call fails and neither the
    store nor the local storage changes. *)
Theorem saveAddress_writes (newId : string) (user : User) (address : AddressInput)
    (db : Profiles) :
  (users db !! user_id user = None ->
     exists message, saveAddress newId user address db = (Rejected message, db))
  /\ (forall stored,
        users db !! user_id user = Some stored ->
        exists user' db' added,
          saveAddress newId user address db = (Resolved user', db')
          /\ user_addresses user' = user_addresses user ++ [added]
          /\ address_id added = newId
          /\ set_addresses (user_addresses user) user' = user
          /\ localStorage db' = Some user'
          /\ users db' !! user_id user
             = Some (set_addresses (user_addresses user') stored)
          /\ forall other, other <> user_id user ->
                           users db' !! other = users db !! other).
Proof.
  unfold saveAddress, write_addresses. split.
  - intros Hdoc. rewrite Hdoc. now eexists.
  - intros stored Hdoc. rewrite Hdoc.
    eexists _, _, _. split; [reflexivity|]. simpl.
    split; [reflexivity|]. split; [reflexivity|].
    split; [now destruct user|]. split; [reflexivity|].
    split; [apply lookup_insert_eq|].
    intros other Hother. now apply lookup_insert_ne.
Qed.

Lemma saveAddress_writes_witness :
  users Fixture.profiles !! user_id Fixture.buyer = Some Fixture.buyer
  /\ exists user' db' added,
       saveAddress "a2" Fixture.buyer Fixture.office Fixture.profiles
       = (Resolved user', db')
       /\ user_addresses user' = user_addresses Fixture.buyer ++ [added]
       /\ address_id added = "a2".
Proof.
  assert (Hdoc : users Fixture.profiles !! user_id Fixture.buyer = Some Fixture.buyer)
    by reflexivity.
  split; [exact Hdoc|].
  destruct (proj2 (saveAddress_writes "a2" Fixture.buyer Fixture.office Fixture.profiles)
              Fixture.buyer Hdoc)
    as (user' & db' & added & Hrun & Hlist & Hid & _).
  now exists user', db', added.
Defined.

(** X24: deleting an address that was just saved under an id no other
    address of the user has gives back the profile the caller had: the
    returned profile and the local storage are that profile, and the stored
    document has its addresses. *)
Theorem saveAddress_deleteAddress (newId : string) (user : User)
    (address : AddressInput) (db : Profiles) (stored : User) :
  users db !! user_id user = Some stored ->
  (forall a, a ∈ user_addresses user -> address_id a <> newId) ->
  exists user1 db1 db2,
    saveAddress newId user address db = (Resolved user1, db1)
    /\ deleteAddress user1 newId db1 = (Resolved user, db2)
    /\ localStorage db2 = Some user
    /\ users db2 !! user_id user = Some (set_addresses (user_addresses user) stored)
    /\ forall other, other <> user_id user -> users db2 !! other = users db !! other.
Proof.
  intros Hdoc Hfresh.
  unfold saveAddress, deleteAddress, write_addresses. rewrite Hdoc. simpl.
  eexists _, _, _. split; [reflexivity|]. simpl.
  rewrite lookup_insert_eq. simpl.
  assert (Hback :
    List.filter (fun a => negb (bool_decide (address_id a = newId)))
      (user_addresses user
         ++ [ {| address_id := newId; address_label := new_label address;
                 address_name := new_name address;
                 address_address := new_address address;
                 address_city := new_city address;
                 address_district := new_district address;
                 address_phone := new_phone address |} ])
    = user_addresses user).
  { rewrite List.filter_app. simpl.
    rewrite bool_decide_eq_true_2 by reflexivity. simpl. rewrite app_nil_r.
    apply filter_all. intros a Ha.
    apply negb_true_iff, bool_decide_eq_false. now apply Hfresh. }
  rewrite Hback.
  assert (Huser : set_addresses (user_addresses user)
                    (set_addresses
                       (user_addresses user
                          ++ [ {| address_id := newId; address_label := new_label address;
                                  address_name := new_name address;
                                  address_address := new_address address;
                                  address_city := new_city address;
                                  address_district := new_district address;
                                  address_phone := new_phone address |} ]) user)
                  = user) by (now destruct user).
  rewrite Huser.
  split; [reflexivity|]. simpl. split; [reflexivity|].
  split; [now rewrite insert_insert_eq, lookup_insert_eq|].
  intros other Hother. now rewrite !lookup_insert_ne by congruence.
Qed.

Lemma saveAddress_deleteAddress_witness :
  users Fixture.profiles !! user_id Fixture.buyer = Some Fixture.buyer
  /\ (forall a, a ∈ user_addresses Fixture.buyer -> address_id a <> "a2")
  /\ exists user1 db1 db2,
       saveAddress "a2" Fixture.buyer Fixture.office Fixture.profiles
       = (Resolved user1, db1)
       /\ deleteAddress user1 "a2" db1 = (Resolved Fixture.buyer, db2)
       /\ localStorage db2 = Some Fixture.buyer.
Proof.
  assert (Hdoc : users Fixture.profiles !! user_id Fixture.buyer = Some Fixture.buyer)
    by reflexivity.
  assert (Hfresh : forall a, a ∈ user_addresses Fixture.buyer -> address_id a <> "a2").
  { intros a Ha. simpl in Ha. apply list_elem_of_singleton in Ha as ->. discriminate. }
  split; [exact Hdoc|]. split; [exact Hfresh|].
  destruct (saveAddress_deleteAddress "a2" Fixture.buyer Fixture.office Fixture.profiles
              Fixture.buyer Hdoc Hfresh)
    as (user1 & db1 & db2 & H1 & H2 & H3 & _).
  now exists user1, db1, db2.
Defined.

End AccountProperties.

(** ** Popups and settings *)

Section SiteProperties.

Import Firebase Site.

(** X25: togglePopup flips the active flag of a stored popup and nothing
    else; on an id that is not stored it does nothing and raises nothing;
    toggling the same popup twice gives back the store there was. *)
Theorem togglePopup_twice (id : string) (db : Content) :
  (forall popup,
      popups db !! id = Some popup ->
      exists popup',
        popups (snd (togglePopup id db)) !! id = Some popup'
        /\ popup_isActive popup' = negb (popup_isActive popup)
        /\ popup_message popup' = popup_message popup
        /\ popup_type popup' = popup_type popup)
  /\ (popups db !! id = None -> togglePopup id db = (Resolved tt, db))
  /\ (forall other, other <> id ->
                    popups (snd (togglePopup id db)) !! other = popups db !! other)
  /\ settings (snd (togglePopup id db)) = settings db
  /\ snd (togglePopup id (snd (togglePopup id db))) = db.
Proof.
  unfold togglePopup.
  destruct (popups db !! id) as [popup|] eqn:Hdoc; simpl.
  - split; [|split; [discriminate|split; [|split; [reflexivity|]]]].
    + intros p Hp. injection Hp as <-. eexists.
      split; [apply lookup_insert_eq|]. now repeat split.
    + intros other Hother. now apply lookup_insert_ne.
    + rewrite lookup_insert_eq. simpl. rewrite negb_involutive, insert_insert_eq.
      destruct db as [ps st]. simpl in *. f_equal.
      apply insert_id. rewrite Hdoc. now destruct popup.
  - rewrite Hdoc. repeat split; try reflexivity. discriminate.
Qed.

(** X26: getSettings always returns settings that are then stored, so that
    asking again returns the same and writes nothing; it returns the stored
    settings when there are some and the defaults otherwise; and after
    updateSettings it returns what was saved.  The popups are untouched. *)
Theorem getSettings_lazy (db : Content) :
  exists current db1,
    getSettings db = (Resolved current, db1)
    /\ settings db1 = Some current
    /\ getSettings db1 = (Resolved current, db1)
    /\ (settings db = None -> current = defaultSettings)
    /\ (forall stored, settings db = Some stored -> current = stored /\ db1 = db)
    /\ popups db1 = popups db
    /\ forall new,
         exists db2,
           updateSettings new db = (Resolved new, db2)
           /\ getSettings db2 = (Resolved new, db2)
           /\ popups db2 = popups db.
Proof.
  unfold getSettings, updateSettings.
  destruct (settings db) as [stored|] eqn:Hdoc; simpl.
  - exists stored, db. rewrite Hdoc.
    repeat split; try reflexivity; try discriminate; try congruence.
    intros new. eexists. repeat split.
  - eexists _, _. split; [reflexivity|]. simpl.
    repeat split; try reflexivity; try discriminate.
    intros new. eexists. repeat split.
Qed.

End SiteProperties.

(** ** The conversation list *)

Section ChatProperties.

Lemma unique_from (arr seen : list string) :
  NoDup seen ->
  NoDup (fold_left (fun seen x => if Arr.includes x seen then seen else seen ++ [x])
                   arr seen)
  /\ forall x,
       x ∈ fold_left (fun seen x => if Arr.includes x seen then seen else seen ++ [x])
                     arr seen
       <-> x ∈ seen \/ x ∈ arr.
Proof.
  revert seen. induction arr as [|y arr IH]; intros seen Hnd; simpl.
  - split; [exact Hnd|]. intros x. rewrite elem_of_nil. tauto.
  - destruct (Arr.includes y seen) eqn:Hseen; unfold Arr.includes in Hseen.
    + apply bool_decide_eq_true in Hseen.
      destruct (IH seen Hnd) as [Hnd' Hmem]. split; [exact Hnd'|].
      intros x. rewrite Hmem, elem_of_cons.
      split; [tauto|]. intros [Hx|[->|Hx]]; tauto.
    + apply bool_decide_eq_false in Hseen.
      assert (Hnd1 : NoDup (seen ++ [y])).
      { apply NoDup_app. split; [exact Hnd|]. split; [|apply NoDup_singleton].
        intros z Hz Hz'. apply list_elem_of_singleton in Hz'. subst z. contradiction. }
      destruct (IH (seen ++ [y]) Hnd1) as [Hnd' Hmem]. split; [exact Hnd'|].
      intros x. rewrite Hmem, elem_of_app, list_elem_of_singleton, elem_of_cons. tauto.
Qed.

Lemma conversation_ids (messages : list ChatMessage) :
  List.map fst (Chat.conversations messages)
  = Arr.unique (List.map message_userId messages).
Proof.
  unfold Chat.conversations. cbv zeta.
  generalize (Arr.unique (List.map message_userId messages)). intros uids.
  induction uids as [|uid uids IH]; simpl; [reflexivity|]. now rewrite IH.
Qed.

(** X27: the conversation list has one entry per customer who has a message
    and no other entry, and the last message of each entry is never missing:
    it is a message of the snapshot sent in that customer's thread. *)
Theorem conversations_one_each (messages : list ChatMessage) :
  NoDup (List.map fst (Chat.conversations messages))
  /\ (forall uid,
        uid ∈ List.map fst (Chat.conversations messages)
        <-> exists m, m ∈ messages /\ message_userId m = uid)
  /\ (forall uid lastMessage,
        (uid, lastMessage) ∈ Chat.conversations messages ->
        exists m, lastMessage = Some m /\ m ∈ messages /\ message_userId m = uid).
Proof.
  destruct (unique_from (List.map message_userId messages) [] (NoDup_nil_2 (A:=string)))
    as [Hnd Hmem].
  assert (Hids : forall uid,
             uid ∈ Arr.unique (List.map message_userId messages)
             <-> exists m, m ∈ messages /\ message_userId m = uid).
  { intros uid. unfold Arr.unique. rewrite Hmem, elem_of_nil.
    rewrite list_elem_of_In, in_map_iff. split.
    - intros [[]|(m & Hid & Hin)]. exists m. split; [now apply list_elem_of_In|exact Hid].
    - intros (m & Hin & Hid). right. exists m. split; [exact Hid|now apply list_elem_of_In]. }
  rewrite conversation_ids. split; [exact Hnd|]. split; [exact Hids|].
  intros uid lastMessage Hin.
  unfold Chat.conversations in Hin. cbv zeta in Hin.
  apply list_elem_of_In, in_map_iff in Hin as (uid' & Heq & Huid).
  injection Heq as -> <-.
  apply list_elem_of_In, Hids in Huid as (m & Hm & Hid).
  destruct (List.filter (fun m0 => bool_decide (message_userId m0 = uid)) messages)
    as [|first rest] eqn:Hfilter.
  - exfalso.
    assert (Hmf : In m (List.filter (fun m0 => bool_decide (message_userId m0 = uid))
                          messages)).
    { apply filter_In. split; [now apply list_elem_of_In|].
      now apply bool_decide_eq_true. }
    rewrite Hfilter in Hmf. exact Hmf.
  - exists first. split; [reflexivity|].
    assert (Hff : In first (List.filter (fun m0 => bool_decide (message_userId m0 = uid))
                              messages)) by (rewrite Hfilter; now left).
    apply filter_In in Hff as [Hin Hid']. split; [now apply list_elem_of_In|].
    now apply bool_decide_eq_true in Hid'.
Qed.

Lemma head_filter_latest (keep : ChatMessage -> bool) (messages : list ChatMessage)
    (m : ChatMessage) :
  StronglySorted (fun a b => (message_timestamp b <= message_timestamp a)%Z) messages ->
  head (List.filter keep messages) = Some m ->
  forall m', m' ∈ messages -> keep m' = true ->
             (message_timestamp m' <= message_timestamp m)%Z.
Proof.
  induction 1 as [|x l Hl IH Hx]; simpl; intros Hhead m' Hin Hkeep.
  - now apply elem_of_nil in Hin.
  - destruct (keep x) eqn:Hkx.
    + simpl in Hhead. injection Hhead as <-.
      apply elem_of_cons in Hin as [->|Hin]; [lia|].
      rewrite Forall_forall in Hx. now apply Hx.
    + apply elem_of_cons in Hin as [->|Hin]; [congruence|].
      now apply IH.
Qed.

(** X28: when the snapshot lists the messages latest first, as the query
    asks, the last message of every conversation is the latest of that
    customer's thread: none of the thread's messages has a later time. *)
Theorem conversations_latest (messages : list ChatMessage) :
  StronglySorted (fun a b => (message_timestamp b <= message_timestamp a)%Z) messages ->
  forall uid m m',
    (uid, Some m) ∈ Chat.conversations messages ->
    m' ∈ messages -> message_userId m' = uid ->
    (message_timestamp m' <= message_timestamp m)%Z.
Proof.
  intros Hsorted uid m m' Hin Hm' Hid.
  unfold Chat.conversations in Hin. cbv zeta in Hin.
  apply list_elem_of_In, in_map_iff in Hin as (uid' & Heq & _).
  injection Heq as -> Hhead.
  apply (head_filter_latest _ messages m Hsorted Hhead m' Hm').
  now apply bool_decide_eq_true.
Qed.

Lemma conversations_latest_witness :
  StronglySorted (fun a b => (message_timestamp b <= message_timestamp a)%Z)
    Fixture.inbox
  /\ ("bob", Some (Fixture.message "m3" "bob" fromUser 30))
     ∈ Chat.conversations Fixture.inbox
  /\ Fixture.message "m1" "bob" fromUser 10 ∈ Fixture.inbox
  /\ (message_timestamp (Fixture.message "m1" "bob" fromUser 10)
      <= message_timestamp (Fixture.message "m3" "bob" fromUser 30))%Z.
Proof.
  assert (Hsorted : StronglySorted
                      (fun a b => (message_timestamp b <= message_timestamp a)%Z)
                      Fixture.inbox).
  { unfold Fixture.inbox.
    repeat (constructor; [|repeat (constructor; [simpl; lia|]); constructor]).
    constructor. }
  assert (Hconv : ("bob", Some (Fixture.message "m3" "bob" fromUser 30))
                  ∈ Chat.conversations Fixture.inbox).
  { vm_compute. apply list_elem_of_further, list_elem_of_here. }
  assert (Hmsg : Fixture.message "m1" "bob" fromUser 10 ∈ Fixture.inbox).
  { unfold Fixture.inbox. do 3 apply list_elem_of_further. apply list_elem_of_here. }
  split; [exact Hsorted|]. split; [exact Hconv|]. split; [exact Hmsg|].
  exact (conversations_latest Fixture.inbox Hsorted "bob" _ _ Hconv Hmsg eq_refl).
Defined.

End ChatProperties.

(** ** Thumbnails and signing in *)

Section DetailProperties.

Import Detail.

Lemma index_from_first (i : Z) (x : string) (pre post : list string) :
  x ∉ pre ->
  index_from i x (pre ++ x :: post) = (i + Z.of_nat (length pre))%Z.
Proof.
  revert i. induction pre as [|y pre IH]; intros i Hout; simpl.
  - rewrite bool_decide_eq_true_2 by reflexivity. lia.
  - apply not_elem_of_cons in Hout as [Hne Hout].
    rewrite bool_decide_eq_false_2 by congruence.
    rewrite IH by exact Hout. lia.
Qed.

Lemma index_from_earlier (i : Z) (x : string) (pre rest : list string) :
  x ∈ pre ->
  (index_from i x (pre ++ rest) < i + Z.of_nat (length pre))%Z.
Proof.
  revert i. induction pre as [|y pre IH]; intros i Hin; simpl.
  - now apply elem_of_nil in Hin.
  - case_bool_decide as Hy; [lia|].
    apply elem_of_cons in Hin as [->|Hin]; [congruence|].
    specialize (IH (i + 1)%Z Hin). lia.
Qed.

(** The filter of the thumbnails keeps an image exactly at its first
    occurrence, if it is not empty. *)
Lemma first_occurrences (arr pre rest : list string) :
  arr = pre ++ rest ->
  NoDup (filter_from (fun img i => Arr.truthy_str img && (indexOf img arr =? i)%Z)
                     (Z.of_nat (length pre)) rest)
  /\ forall img,
       img ∈ filter_from (fun img i => Arr.truthy_str img && (indexOf img arr =? i)%Z)
                         (Z.of_nat (length pre)) rest
       <-> img ∈ rest /\ ~ img ∈ pre /\ img <> "".
Proof.
  revert pre. induction rest as [|x rest IH]; intros pre Harr; simpl.
  - split; [apply NoDup_nil_2|]. intros img. rewrite elem_of_nil. tauto.
  - destruct (IH (pre ++ [x])) as [Hnd Hmem].
    { now rewrite <- app_assoc. }
    rewrite length_app, Nat2Z.inj_add in Hnd, Hmem. simpl in Hnd, Hmem.
    assert (Hkeep : Arr.truthy_str x && (indexOf x arr =? Z.of_nat (length pre))%Z = true
                    <-> x <> "" /\ x ∉ pre).
    { unfold Arr.truthy_str, indexOf.
      rewrite andb_true_iff, negb_true_iff, bool_decide_eq_false, Z.eqb_eq.
      split.
      - intros [Hne Hidx]. split; [exact Hne|]. intros Hin.
        pose proof (index_from_earlier 0 x pre (x :: rest) Hin) as Hlt.
        rewrite <- Harr in Hlt. lia.
      - intros [Hne Hout]. split; [exact Hne|].
        rewrite Harr, index_from_first by exact Hout. lia. }
    destruct (Arr.truthy_str x && (indexOf x arr =? Z.of_nat (length pre))%Z) eqn:Hk.
    + destruct (proj1 Hkeep eq_refl) as [Hne Hout]. split.
      * apply NoDup_cons. split; [|exact Hnd].
        intros Hin. apply Hmem in Hin as (_ & Hnot & _).
        apply Hnot, elem_of_app. right. apply list_elem_of_here.
      * intros img. rewrite !elem_of_cons, Hmem, elem_of_app, list_elem_of_singleton.
        split.
        -- intros [->|(Hin & Hnot & Hne')]; [tauto|]. tauto.
        -- intros ([->|Hin] & Hnot & Hne'); [tauto|].
           destruct (decide (img = x)) as [->|Hdiff]; [tauto|]. right. tauto.
    + split; [exact Hnd|].
      intros img. rewrite elem_of_cons, Hmem, elem_of_app, list_elem_of_singleton.
      split.
      * intros (Hin & Hnot & Hne'). tauto.
      * intros ([->|Hin] & Hnot & Hne').
        -- exfalso. assert (Htrue : false = true) by (apply Hkeep; tauto).
           discriminate Htrue.
        -- repeat split; try assumption. intros [Hp| ->]; [contradiction|].
           assert (Htrue : false = true) by (apply Hkeep; tauto).
           discriminate Htrue.
Qed.

(** X29: the thumbnails of a product show every image of the product that is
    not empty, the main image included, each exactly once; when the main
    image is not empty it comes first. *)
Theorem thumbnails_distinct (product : Product) :
  NoDup (thumbnails product)
  /\ (forall img,
        img ∈ thumbnails product
        <-> img <> ""
            /\ (img = product_imageUrl product \/ img ∈ product_images product))
  /\ (product_imageUrl product <> "" ->
      head (thumbnails product) = Some (product_imageUrl product)).
Proof.
  destruct (first_occurrences (product_imageUrl product :: product_images product) []
              (product_imageUrl product :: product_images product) eq_refl)
    as [Hnd Hmem].
  split; [exact Hnd|]. split.
  - intros img. unfold thumbnails. cbv zeta.
    change 0%Z with (Z.of_nat (length (@nil string))).
    rewrite Hmem, elem_of_cons, elem_of_nil. tauto.
  - intros Hmain. unfold thumbnails. cbv zeta. simpl.
    unfold Arr.truthy_str, indexOf. simpl.
    rewrite (bool_decide_eq_false_2 _ Hmain).
    rewrite bool_decide_eq_true_2 by reflexivity. reflexivity.
Qed.

End DetailProperties.

Section SessionProperties.

Import Firebase Account Session.

(** X30: login without a password, or with an empty one, fails with
    "Password is required" before anything else happens; a failed sign-in
    fails the login with the provider's message; a sign-in for which no
    profile has the email and none is stored under the uid fails with "User
    profile not found in database."; in all these cases the store and the
    local storage are untouched.  A login that succeeds returns a stored
    profile, found by its email or else under the uid, caches it in the
    local storage, where getCurrentUser reads it, and writes no document. *)
Theorem login_outcomes (signIn : string -> string -> Outcome string)
    (email : string) (password : option string) (db : Profiles) :
  ((password = None \/ password = Some "") ->
     login signIn email password db = (Rejected "Password is required", db))
  /\ (forall pw message,
        password = Some pw -> pw <> "" -> signIn email pw = Rejected message ->
        login signIn email password db = (Rejected message, db))
  /\ (forall pw uid,
        password = Some pw -> pw <> "" -> signIn email pw = Resolved uid ->
        (forall id u, users db !! id = Some u -> user_email u <> email) ->
        users db !! uid = None ->
        login signIn email password db
        = (Rejected "User profile not found in database.", db))
  /\ (forall user db',
        login signIn email password db = (Resolved user, db') ->
        users db' = users db
        /\ getCurrentUser db' = Some user
        /\ exists pw uid key stored,
             password = Some pw /\ pw <> "" /\ signIn email pw = Resolved uid
             /\ users db !! key = Some stored
             /\ (user_email stored = email /\ user = set_user_id key stored
                 \/ key = uid /\ user = stored
                    /\ forall id u, users db !! id = Some u -> user_email u <> email))
  /\ (forall message db',
        login signIn email password db = (Rejected message, db') -> db' = db).
Proof.
  assert (Hsnap : forall doc rest,
            List.filter (fun doc => bool_decide (user_email (snd doc) = email))
                        (map_to_list (users db)) = doc :: rest ->
            users db !! fst doc = Some (snd doc) /\ user_email (snd doc) = email).
  { intros doc rest Hfilter.
    assert (Hin : In doc (List.filter
                            (fun doc => bool_decide (user_email (snd doc) = email))
                            (map_to_list (users db))))
      by (rewrite Hfilter; now left).
    apply filter_In in Hin as [Hin Hmail]. apply bool_decide_eq_true in Hmail.
    split; [|exact Hmail].
    apply list_elem_of_In in Hin. destruct doc as [id u].
    now apply elem_of_map_to_list in Hin. }
  assert (Hnone : (forall id u, users db !! id = Some u -> user_email u <> email) <->
            List.filter (fun doc => bool_decide (user_email (snd doc) = email))
                        (map_to_list (users db)) = []).
  { split.
    - intros Hno.
      destruct (List.filter _ (map_to_list (users db))) as [|doc rest] eqn:Hfilter;
        [reflexivity|].
      destruct (Hsnap doc rest eq_refl) as [Hdoc Hmail].
      exfalso. exact (Hno _ _ Hdoc Hmail).
    - intros Hempty id u Hdoc Hmail.
      assert (Hin : In (id, u) (List.filter
                                  (fun doc => bool_decide (user_email (snd doc) = email))
                                  (map_to_list (users db)))).
      { apply filter_In. split.
        - apply list_elem_of_In. now apply elem_of_map_to_list.
        - now apply bool_decide_eq_true. }
      rewrite Hempty in Hin. exact Hin. }
  unfold login, getCurrentUser, Arr.truthy_str.
  split; [|split; [|split; [|split]]].
  - intros [->| ->]; reflexivity.
  - intros pw message -> Hpw Hsign.
    rewrite (bool_decide_eq_false_2 _ Hpw). simpl. now rewrite Hsign.
  - intros pw uid -> Hpw Hsign Hmail Huid.
    rewrite (bool_decide_eq_false_2 _ Hpw). simpl. rewrite Hsign.
    cbv zeta. rewrite (proj1 Hnone Hmail), Huid. reflexivity.
  - intros user db'. destruct password as [pw|]; [|discriminate].
    case_bool_decide as Hpw; simpl; [discriminate|].
    destruct (signIn email pw) as [uid|message] eqn:Hsign; [|discriminate].
    cbv zeta.
    destruct (List.filter _ (map_to_list (users db))) as [|doc rest] eqn:Hfilter.
    + destruct (users db !! uid) as [stored|] eqn:Huid; [|discriminate].
      intros Hrun. injection Hrun as <- <-. simpl.
      split; [reflexivity|]. split; [reflexivity|].
      exists pw, uid, uid, stored. repeat split; try assumption.
      right. repeat split. now apply Hnone.
    + destruct (Hsnap doc rest eq_refl) as [Hdoc Hmail].
      intros Hrun. injection Hrun as <- <-. simpl.
      split; [reflexivity|]. split; [reflexivity|].
      exists pw, uid, (fst doc), (snd doc). repeat split; try assumption.
      now left.
  - intros message db'. destruct password as [pw|]; [|now intros [= _ <-]].
    case_bool_decide as Hpw; simpl; [now intros [= _ <-]|].
    destruct (signIn email pw) as [uid|m]; [|now intros [= _ <-]].
    cbv zeta.
    destruct (match List.filter _ (map_to_list (users db)) with
              | [] => users db !! uid
              | doc :: _ => Some (set_user_id doc.1 doc.2)
              end); [discriminate|now intros [= _ <-]].
Qed.

End SessionProperties.
